(** * gitea-check-service: the status relay of [main.go]

    A shallow embedding of the request pipeline of [main.go]: the two state
    mappers, the two methods of [GiteaService], and the [/status] and
    [/health] handlers, followed by the properties of the specification
    that concern them. *)

From Stdlib Require Import ZArith String Ascii List.
From stdpp Require Import base decidable option list strings gmap pretty.

Set Warnings "-register-all".
Local Open Scope string_scope.
Local Open Scope Z_scope.

(** ** Constants of [net/http] used by the program *)

Definition StatusOK : Z := 200.
Definition StatusAccepted : Z := 202.
Definition StatusNoContent : Z := 204.
Definition StatusBadRequest : Z := 400.
Definition StatusNotFound : Z := 404.
Definition StatusMethodNotAllowed : Z := 405.
Definition StatusExpectationFailed : Z := 417.
Definition StatusInternalServerError : Z := 500.
Definition MethodGet : string := "GET".

(** ** State mapper *)

(** The map literal of [mapStateToSymbol]. Go strings are byte strings, and
    so are the literals below: each symbol is its three UTF-8 bytes. *)
Definition symbolMap : gmap string string :=
  <["success" := "✓"]> (
  <["failure" := "✗"]> (
  <["error"   := "✗"]> (
  <["pending" := "●"]> (
  <["warning" := "⚠"]> (
  <["unknown" := "○"]> ∅))))).

Definition mapStateToSymbol (state : string) : string :=
  match symbolMap !! state with
  | Some symbol => symbol
  | None => "?"
  end.

(** The map literal of [mapStateToHTTPCode]. *)
Definition codeMap : gmap string Z :=
  <["success" := StatusOK]> (
  <["failure" := StatusExpectationFailed]> (
  <["error"   := StatusInternalServerError]> (
  <["pending" := StatusAccepted]> (
  <["warning" := StatusOK]> (
  <["unknown" := StatusNoContent]> ∅))))).

Definition mapStateToHTTPCode (state : string) : Z :=
  match codeMap !! state with
  | Some code => code
  | None => StatusOK
  end.

(** ** Data model *)

(** A Go [error] is modelled by the text its [Error()] method returns, which
    is all the program ever does with one ([%v] formatting). *)
Definition error : Type := string.

(** A Go [(T, error)] result. *)
Inductive result (A : Type) : Type :=
  | Ok (a : A)
  | Err (e : error).
Arguments Ok {A} a.
Arguments Err {A} e.

(** A JSON document. Numbers keep their literal text. *)
Inductive json : Type :=
  | JNull
  | JBool (b : bool)
  | JNumber (literal : string)
  | JString (s : string)
  | JArray (items : list json)
  | JObject (fields : list (string * json)).

(** [StatusResponse]: the Gitea commit status response. Its fields carry
    the prefix [sr_], [State] being a field of [BuildStatusResponse] too. *)
Record StatusResponse : Type := mkStatusResponse {
  sr_State : string;
  sr_Statuses : list json;
  sr_TotalCount : Z }.

(** [Repository]: basic repo info from Gitea. *)
Record Repository : Type := mkRepository {
  DefaultBranch : string }.

(** [BuildStatusResponse]: the response of this service. A field left out
    of a Go composite literal is the empty string. The field [Repository]
    is written [Repository_], the name being taken by the record above. *)
Record BuildStatusResponse : Type := mkBuildStatusResponse {
  Owner : string;
  Repository_ : string;
  Branch : string;
  State : string;
  Symbol : string;
  Error : string }.

(** [json.Marshal] of a [BuildStatusResponse], following its struct tags:
    the five first fields are always written, [error] has [omitempty]. *)
Definition Marshal_BuildStatusResponse (v : BuildStatusResponse) : json :=
  JObject ([("owner", JString (Owner v));
            ("repository", JString (Repository_ v));
            ("branch", JString (Branch v));
            ("state", JString (State v));
            ("symbol", JString (Symbol v))]
           ++ (if decide (Error v = "") then []
               else [("error", JString (Error v))])).

(** [json.Marshal] of a [map[string]string]: an object whose keys come in
    sorted order, which is the order [map_to_list] of a one-entry map has. *)
Definition Marshal_map (m : gmap string string) : json :=
  JObject ((λ kv, (kv.1, JString kv.2)) <$> map_to_list m).

(** ** [net/http] values *)

(** [http.Header] and [url.Values]: both are [map[string][]string]. *)
Definition Header_Set (h : gmap string (list string)) (key value : string)
  : gmap string (list string) :=
  <[key := [value]]> h.

Definition Header_Del (h : gmap string (list string)) (key : string)
  : gmap string (list string) :=
  delete key h.

Definition Values_Get (v : gmap string (list string)) (key : string) : string :=
  match v !! key with
  | Some (x :: _) => x
  | _ => ""
  end.

(** [url.URL], as far as the program looks at it: the text it was parsed
    from and the parsed query ([URL.Query()]). *)
Record URL : Type := mkURL {
  url_String : string;
  url_Query : gmap string (list string) }.

(** [http.Request]. *)
Record Request : Type := mkRequest {
  Method : string;
  req_URL : URL;
  req_Header : gmap string (list string) }.

(** A response body ([io.ReadCloser]): the bytes it delivers and the error,
    if any, that [Close] returns. *)
Record Body : Type := mkBody {
  body_bytes : string;
  body_closeErr : option error }.

(** [http.Response]. *)
Record Response : Type := mkResponse {
  StatusCode : Z;
  resp_Body : Body }.

(** What a handler writes into the response body with one [Write]: the
    line [json.Encoder.Encode] produces for a document, or a line of plain
    text ([fmt.Fprintln]). The bytes of a JSON line are those of
    [encoding/json]; the model keeps the document. *)
Inductive chunk : Type :=
  | JSONLine (doc : json)
  | TextLine (text : string).

(** ** The library functions the program relies on

    [url.Parse], the decoding of the two upstream bodies by
    [json.Decoder.Decode], and [http.DetectContentType] belong to the Go
    standard library. The program is verified for every behaviour they may
    have. *)
Class GoLib : Type := {
  url_Parse : string → result URL;
  json_Decode_Repository : string → result Repository;
  json_Decode_StatusResponse : string → result StatusResponse;
  http_DetectContentType : chunk → string }.

(** The [HTTPClient] interface: [Do] sends a request and returns a response
    or an error. An implementation may keep state (the mock of the tests
    counts its calls), which [Do] returns updated. *)
Class HTTPClient (C : Type) : Type :=
  Do : C → Request → C * result Response.

(** ** [httptest.ResponseRecorder]

    The [http.ResponseWriter] the handlers are driven with: it records the
    header map, the status code of the first [WriteHeader] and every chunk
    written. A new recorder has code 200. *)
Record ResponseRecorder : Type := mkRecorder {
  Code : Z;
  HeaderMap : gmap string (list string);
  rec_Body : list chunk;
  wroteHeader : bool }.

Definition NewRecorder : ResponseRecorder :=
  {| Code := 200; HeaderMap := ∅; rec_Body := []; wroteHeader := false |}.

(** [w.Header().Set(key, value)] and [w.Header().Del(key)]. *)
Definition w_Header_Set (w : ResponseRecorder) (key value : string) : ResponseRecorder :=
  {| Code := Code w; HeaderMap := Header_Set (HeaderMap w) key value;
     rec_Body := rec_Body w; wroteHeader := wroteHeader w |}.

Definition w_Header_Del (w : ResponseRecorder) (key : string) : ResponseRecorder :=
  {| Code := Code w; HeaderMap := Header_Del (HeaderMap w) key;
     rec_Body := rec_Body w; wroteHeader := wroteHeader w |}.

Definition w_Header_Get (w : ResponseRecorder) (key : string) : string :=
  Values_Get (HeaderMap w) key.

(** [w.WriteHeader(code)]: only the first call counts. (The recorder
    panics on a code outside 100..999; the handlers pass none.) *)
Definition WriteHeader (w : ResponseRecorder) (code : Z) : ResponseRecorder :=
  if wroteHeader w then w
  else {| Code := code; HeaderMap := HeaderMap w;
          rec_Body := rec_Body w; wroteHeader := true |}.

Section Writer.
Context `{!GoLib}.

(** [w.Write(b)]: a first write without [WriteHeader] sends 200, after
    sniffing a [Content-Type] when none (and no [Transfer-Encoding]) is
    set. The recorder's [Write] never fails. *)
Definition Write (w : ResponseRecorder) (b : chunk) : ResponseRecorder * option error :=
  let w1 :=
    if wroteHeader w then w
    else
      let w0 :=
        if decide (HeaderMap w !! "Content-Type" = None
                   ∧ Values_Get (HeaderMap w) "Transfer-Encoding" = "")
        then w_Header_Set w "Content-Type" (http_DetectContentType b)
        else w in
      WriteHeader w0 200 in
  ({| Code := Code w1; HeaderMap := HeaderMap w1;
      rec_Body := rec_Body w1 ++ [b]; wroteHeader := wroteHeader w1 |}, None).

(** [json.NewEncoder(w).Encode(v)] once [v] is marshalled: one write of
    the document and its newline. *)
Definition Encode (w : ResponseRecorder) (doc : json) : ResponseRecorder * option error :=
  Write w (JSONLine doc).

(** [http.Error(w, error, code)]. *)
Definition http_Error (w : ResponseRecorder) (msg : string) (code : Z) : ResponseRecorder :=
  let w := w_Header_Del w "Content-Length" in
  let w := w_Header_Set w "Content-Type" "text/plain; charset=utf-8" in
  let w := w_Header_Set w "X-Content-Type-Options" "nosniff" in
  let w := WriteHeader w code in
  (Write w (TextLine msg)).1.
End Writer.

(** ** The process: globals, transport and observations *)

(** [GiteaService]. Its [HTTPClient] field refers to the transport object
    of the process, whose state is the [transport] of the [World]. *)
Record GiteaService : Type := mkGiteaService {
  BaseURL : string;
  Token : string }.

(** What the program does to the outside, in order: entering one of the two
    upstream operations, handing a request to the transport, and consuming
    or closing a response body. *)
Inductive Event : Type :=
  | CallGetDefaultBranch (owner repo : string)
  | CallGetCommitStatus (owner repo branch : string)
  | ClientDo (req : Request)
  | BodyReadAll
  | BodyDecode
  | BodyClose.

(** The state a request runs in: the transport, the events so far and the
    lines printed by [log.Printf]. *)
Record World (C : Type) : Type := mkWorld {
  transport : C;
  trace : list Event;
  logs : list string }.
Arguments mkWorld {C} transport trace logs.
Arguments transport {C} w.
Arguments trace {C} w.
Arguments logs {C} w.

(** Computations over the world. *)
Definition M (C A : Type) : Type := World C → A * World C.

Definition ret {C A} (a : A) : M C A := λ σ, (a, σ).

Definition bind {C A B} (m : M C A) (k : A → M C B) : M C B :=
  λ σ, let '(a, σ') := m σ in k a σ'.

Notation "'let!' x ':=' m 'in' k" := (bind m (λ x, k))
  (at level 10, x pattern, m at level 100, k at level 200).
Notation "m ';;' k" := (bind m (λ _, k))
  (at level 100, k at level 200, right associativity).

Definition emit {C} (e : Event) : M C unit :=
  λ σ, (tt, mkWorld (transport σ) (trace σ ++ [e]) (logs σ)).

Definition log_Printf {C} (line : string) : M C unit :=
  λ σ, (tt, mkWorld (transport σ) (trace σ) (logs σ ++ [line])).

(** [g.HTTPClient.Do(req)]. *)
Definition HTTPClient_Do {C} `{!HTTPClient C} (req : Request) : M C (result Response) :=
  λ σ, let '(c, r) := Do (transport σ) req in
       (r, mkWorld c (trace σ ++ [ClientDo req]) (logs σ)).

(** [io.ReadAll(resp.Body)], its error dropped as the program does. *)
Definition io_ReadAll {C} (b : Body) : M C string :=
  emit BodyReadAll ;; ret (body_bytes b).

(** The deferred function of both upstream operations: close the body and
    log a failure to do so. It runs after the result [r] is determined. *)
Definition defer_Close {C A} (b : Body) (m : M C A) : M C A :=
  let! r := m in
  emit BodyClose ;;
  match body_closeErr b with
  | Some err => log_Printf ("Error closing response body: " ++ err) ;; ret r
  | None => ret r
  end.

Section Service.
Context {C : Type} `{!HTTPClient C} `{!GoLib}.

(** [http.NewRequest(method, url, nil)] for a valid method: it fails when
    the URL does not parse. *)
Definition http_NewRequest (method url : string) : result Request :=
  match url_Parse url with
  | Err e => Err e
  | Ok u => Ok {| Method := method; req_URL := u; req_Header := ∅ |}
  end.

Definition req_Header_Set (req : Request) (key value : string) : Request :=
  {| Method := Method req; req_URL := req_URL req;
     req_Header := Header_Set (req_Header req) key value |}.

(** [GetDefaultBranch] fetches the default branch for a repository. *)
Definition GetDefaultBranch (g : GiteaService) (owner repo : string) : M C (result string) :=
  emit (CallGetDefaultBranch owner repo) ;;
  let url := BaseURL g ++ "/api/v1/repos/" ++ owner ++ "/" ++ repo in
  match http_NewRequest "GET" url with
  | Err err => ret (Err err)
  | Ok req =>
    let req := req_Header_Set req "Authorization" ("token " ++ Token g) in
    let! r := HTTPClient_Do req in
    match r with
    | Err err => ret (Err err)
    | Ok resp =>
      defer_Close (resp_Body resp) (
        if decide (StatusCode resp ≠ StatusOK) then
          let! body := io_ReadAll (resp_Body resp) in
          ret (Err ("failed to get repository info: "
                    ++ pretty (StatusCode resp) ++ " - " ++ body))
        else
          emit BodyDecode ;;
          match json_Decode_Repository (body_bytes (resp_Body resp)) with
          | Err err => ret (Err err)
          | Ok repository => ret (Ok (DefaultBranch repository))
          end)
    end
  end.

(** [GetCommitStatus] fetches the commit status for a repository. *)
Definition GetCommitStatus (g : GiteaService) (owner repo branch : string)
  : M C (result StatusResponse) :=
  emit (CallGetCommitStatus owner repo branch) ;;
  let url := BaseURL g ++ "/api/v1/repos/" ++ owner ++ "/" ++ repo
               ++ "/commits/" ++ branch ++ "/status" in
  match http_NewRequest "GET" url with
  | Err err => ret (Err err)
  | Ok req =>
    let req := req_Header_Set req "Authorization" ("token " ++ Token g) in
    let! r := HTTPClient_Do req in
    match r with
    | Err err => ret (Err err)
    | Ok resp =>
      defer_Close (resp_Body resp) (
        if decide (StatusCode resp = StatusNotFound) then
          (* No status available *)
          ret (Ok {| sr_State := "unknown"; sr_Statuses := []; sr_TotalCount := 0 |})
        else if decide (StatusCode resp ≠ StatusOK) then
          let! body := io_ReadAll (resp_Body resp) in
          ret (Err ("failed to get commit status: "
                    ++ pretty (StatusCode resp) ++ " - " ++ body))
        else
          emit BodyDecode ;;
          match json_Decode_StatusResponse (body_bytes (resp_Body resp)) with
          | Err err => ret (Err err)
          | Ok status => ret (Ok status)
          end)
    end
  end.

(** The global [service], set once by [init]. *)
Variable service : GiteaService.

(** The two wrappers kept for backward compatibility. *)
Definition getDefaultBranch (owner repo : string) : M C (result string) :=
  GetDefaultBranch service owner repo.

Definition getCommitStatus (owner repo branch : string) : M C (result StatusResponse) :=
  GetCommitStatus service owner repo branch.

(** The tail shared by the JSON answers of both handlers: encode the
    response into [w] and log an encoding failure. *)
Definition encode_or_log (w : ResponseRecorder) (doc : json) : M C ResponseRecorder :=
  let '(w, err) := Encode w doc in
  match err with
  | Some err => log_Printf ("Error encoding JSON response: " ++ err) ;; ret w
  | None => ret w
  end.

(** [statusHandler] handles the [/status] endpoint. *)
Definition statusHandler (w : ResponseRecorder) (r : Request) : M C ResponseRecorder :=
  if decide (Method r ≠ MethodGet) then
    ret (http_Error w "Method not allowed" StatusMethodNotAllowed)
  else
    (* Get query parameters *)
    let owner := Values_Get (url_Query (req_URL r)) "owner" in
    let repo := Values_Get (url_Query (req_URL r)) "repo" in
    if decide (owner = "" ∨ repo = "") then
      let response :=
        {| Owner := ""; Repository_ := ""; Branch := ""; State := ""; Symbol := "";
           Error := "Both 'owner' and 'repo' query parameters are required" |} in
      let w := w_Header_Set w "Content-Type" "application/json" in
      let w := WriteHeader w StatusBadRequest in
      encode_or_log w (Marshal_BuildStatusResponse response)
    else
      (* Get default branch *)
      let! b := getDefaultBranch owner repo in
      match b with
      | Err err =>
        let response :=
          {| Owner := owner; Repository_ := repo; Branch := ""; State := ""; Symbol := "";
             Error := "Failed to get repository info: " ++ err |} in
        let w := w_Header_Set w "Content-Type" "application/json" in
        let w := WriteHeader w StatusInternalServerError in
        encode_or_log w (Marshal_BuildStatusResponse response)
      | Ok branch =>
        (* Get commit status *)
        let! s := getCommitStatus owner repo branch in
        match s with
        | Err err =>
          let response :=
            {| Owner := owner; Repository_ := repo; Branch := branch;
               State := ""; Symbol := "";
               Error := "Failed to get commit status: " ++ err |} in
          let w := w_Header_Set w "Content-Type" "application/json" in
          let w := WriteHeader w StatusInternalServerError in
          encode_or_log w (Marshal_BuildStatusResponse response)
        | Ok status =>
          (* Build response *)
          let response :=
            {| Owner := owner; Repository_ := repo; Branch := branch;
               State := sr_State status;
               Symbol := mapStateToSymbol (sr_State status);
               Error := "" |} in
          let w := w_Header_Set w "Content-Type" "application/json" in
          let w := WriteHeader w (mapStateToHTTPCode (sr_State status)) in
          encode_or_log w (Marshal_BuildStatusResponse response)
        end
      end.

(** [healthHandler] provides a simple health check endpoint. *)
Definition healthHandler (w : ResponseRecorder) (r : Request) : M C ResponseRecorder :=
  let w := w_Header_Set w "Content-Type" "application/json" in
  encode_or_log w (Marshal_map {["status" := "ok"]}).
End Service.

(** ** Vocabulary of the properties *)

(** [strings.HasPrefix] and [strings.Contains]. *)
Fixpoint strings_HasPrefix (s prefix : string) {struct prefix} : bool :=
  match prefix, s with
  | EmptyString, _ => true
  | String a p, String b t => if Ascii.eqb a b then strings_HasPrefix t p else false
  | String _ _, EmptyString => false
  end.

Fixpoint strings_Contains (s substr : string) : bool :=
  strings_HasPrefix s substr
  || match s with
     | EmptyString => false
     | String _ t => strings_Contains t substr
     end.

(** The value of a member of a JSON object. *)
Fixpoint assoc (fields : list (string * json)) (key : string) : option json :=
  match fields with
  | [] => None
  | (k, v) :: rest => if decide (k = key) then Some v else assoc rest key
  end.

Definition get_field (doc : json) (key : string) : option json :=
  match doc with
  | JObject fields => assoc fields key
  | _ => None
  end.

(** The documents a handler wrote with [Encode]. *)
Definition json_docs (w : ResponseRecorder) : list json :=
  omap (λ c, match c with JSONLine d => Some d | TextLine _ => None end) (rec_Body w).






(** The two query parameters the handler reads: [r.URL.Query().Get(...)]
    is the first value of the key, or the empty string without one. *)
Definition owner_of (r : Request) : string :=
  Values_Get (url_Query (req_URL r)) "owner".

Definition repo_of (r : Request) : string :=
  Values_Get (url_Query (req_URL r)) "repo".

(** The four JSON answers of the handler to a GET request, by the stage
    the request reached: status code and response value. *)
Inductive status_answer (r : Request) : Z → BuildStatusResponse → Prop :=
  | answer_validation :
      owner_of r = "" ∨ repo_of r = "" →
      status_answer r StatusBadRequest
        {| Owner := ""; Repository_ := ""; Branch := ""; State := ""; Symbol := "";
           Error := "Both 'owner' and 'repo' query parameters are required" |}
  | answer_branch_failure (err : error) :
      owner_of r ≠ "" → repo_of r ≠ "" →
      status_answer r StatusInternalServerError
        {| Owner := owner_of r; Repository_ := repo_of r; Branch := "";
           State := ""; Symbol := "";
           Error := "Failed to get repository info: " ++ err |}
  | answer_status_failure (branch : string) (err : error) :
      owner_of r ≠ "" → repo_of r ≠ "" →
      status_answer r StatusInternalServerError
        {| Owner := owner_of r; Repository_ := repo_of r; Branch := branch;
           State := ""; Symbol := "";
           Error := "Failed to get commit status: " ++ err |}
  | answer_success (branch state : string) :
      owner_of r ≠ "" → repo_of r ≠ "" →
      status_answer r (mapStateToHTTPCode state)
        {| Owner := owner_of r; Repository_ := repo_of r; Branch := branch;
           State := state; Symbol := mapStateToSymbol state; Error := "" |}.

(** The recorder after a JSON answer with status [code]. *)
Definition json_answer (code : Z) (doc : json) : ResponseRecorder :=
  {| Code := code;
     HeaderMap := <["Content-Type" := ["application/json"]]> ∅;
     rec_Body := [JSONLine doc];
     wroteHeader := true |}.

(** The lines the deferred close of a body adds to the log. *)
Definition close_logs (b : Body) : list string :=
  match body_closeErr b with
  | Some err => ["Error closing response body: " ++ err]
  | None => []
  end.

Section Upstream.
Context {C : Type} `{!HTTPClient C} `{!GoLib}.
Variable g : GiteaService.

(** The request both upstream operations hand to the transport for a
    parsed URL: a GET carrying the token. *)
Definition authorized_get (u : URL) : Request :=
  {| Method := "GET"; req_URL := u;
     req_Header := <["Authorization" := ["token " ++ Token g]]> ∅ |}.

(** From the transport state [c], the repository-info call for
    [owner]/[repo] is answered by [resp], leaving the transport in [c']. *)
Definition repo_info_answers (c : C) (owner repo : string) (u : URL) (resp : Response) (c' : C) : Prop :=
  url_Parse (BaseURL g ++ "/api/v1/repos/" ++ owner ++ "/" ++ repo) = Ok u
  ∧ Do c (authorized_get u) = (c', Ok resp).

(** The same for the commit-status call on [branch]. *)
Definition commit_status_answers (c : C) (owner repo branch : string) (u : URL)
    (resp : Response) (c' : C) : Prop :=
  url_Parse (BaseURL g ++ "/api/v1/repos/" ++ owner ++ "/" ++ repo
               ++ "/commits/" ++ branch ++ "/status") = Ok u
  ∧ Do c (authorized_get u) = (c', Ok resp).
End Upstream.

(** ** Test doubles, after [main_test.go] *)

(** [MockHTTPClient]: [DoFunc] answers a request; the closures of the tests
    count their calls, so [DoFunc] is given the number of the call. *)
Record MockHTTPClient : Type := mkMock {
  callCount : nat;
  DoFunc : nat → Request → result Response }.

#[global] Instance MockHTTPClient_Do : HTTPClient MockHTTPClient :=
  λ m req, (mkMock (S (callCount m)) (DoFunc m), DoFunc m (S (callCount m)) req).

(** [createHTTPResponse(statusCode, body)]. *)
Definition createHTTPResponse (statusCode : Z) (body : string) : Response :=
  {| StatusCode := statusCode; resp_Body := {| body_bytes := body; body_closeErr := None |} |}.

(** The mock of [TestStatusHandler]: the first call is for repository info,
    every later one for the commit status. *)
Definition mockClient (repoResponse statusResponse : result Response) : MockHTTPClient :=
  mkMock 0 (λ n _, if decide (n = 1%nat) then repoResponse else statusResponse).

Definition dq : string := String (ascii_of_nat 34) EmptyString.

(** The body [{"default_branch":"main"}]. *)
Definition body_main : string :=
  "{" ++ dq ++ "default_branch" ++ dq ++ ":" ++ dq ++ "main" ++ dq ++ "}".

(** The body [{"state":"success"}]. *)
Definition body_success : string :=
  "{" ++ dq ++ "state" ++ dq ++ ":" ++ dq ++ "success" ++ dq ++ "}".

(** The Go library at the inputs of the examples: every URL parses (its
    query is not looked at), the three bodies above and [{}] decode as
    [encoding/json] decodes them, any other body is rejected. *)
#[global] Instance exampleLib : GoLib := {|
  url_Parse := λ s, Ok {| url_String := s; url_Query := ∅ |};
  json_Decode_Repository := λ b,
    if decide (b = body_main) then Ok {| DefaultBranch := "main" |}
    else if decide (b = "{}") then Ok {| DefaultBranch := "" |}
    else Err "invalid character";
  json_Decode_StatusResponse := λ b,
    if decide (b = body_success)
    then Ok {| sr_State := "success"; sr_Statuses := []; sr_TotalCount := 0 |}
    else if decide (b = "{}")
    then Ok {| sr_State := ""; sr_Statuses := []; sr_TotalCount := 0 |}
    else Err "invalid character";
  http_DetectContentType := λ _, "text/plain; charset=utf-8" |}.

Definition exampleService : GiteaService :=
  {| BaseURL := "https://git.example.com"; Token := "test-token" |}.

(** An inbound request as [http.NewRequest(method, "/status?...", nil)]
    builds it: the query holds the given owner and repo values. *)
Definition statusRequest (method : string) (query : gmap string (list string)) : Request :=
  {| Method := method;
     req_URL := {| url_String := "/status"; url_Query := query |};
     req_Header := ∅ |}.

Definition acme_widget : gmap string (list string) :=
  <["owner" := ["acme"]]> (<["repo" := ["widget"]]> ∅).

Definition world0 (c : MockHTTPClient) : World MockHTTPClient :=
  mkWorld c [] [].

(** [GET /status?owner=acme&repo=widget] and the same with POST. *)
Definition getAcmeWidget : Request := statusRequest "GET" acme_widget.
Definition postAcmeWidget : Request := statusRequest "POST" acme_widget.

(** [GET /status?owner=acme]: the repo parameter is absent. *)
Definition getAcmeOnly : Request := statusRequest "GET" (<["owner" := ["acme"]]> ∅).

(** Upstream scenarios: default branch "main" and no status yet (404);
    repository not found (404 on the first call); a repository document
    without [default_branch] followed by a successful status. *)
Definition world_main_404 : World MockHTTPClient :=
  world0 (mockClient (Ok (createHTTPResponse 200 body_main))
                     (Ok (createHTTPResponse 404 "Not Found"))).

Definition world_repo_404 : World MockHTTPClient :=
  world0 (mockClient (Ok (createHTTPResponse 404 "Repository not found"))
                     (Err "unreachable")).

(** The mock of [TestGiteaService_GetCommitStatus], "no status found". *)
Definition world_status_404 : World MockHTTPClient :=
  world0 (mkMock 0 (λ _ _, Ok (createHTTPResponse 404 "Not Found"))).

Definition world_no_default_branch : World MockHTTPClient :=
  world0 (mockClient (Ok (createHTTPResponse 200 "{}"))
                     (Ok (createHTTPResponse 200 body_success))).

(** ** Process start-up *)

(** [os.Getenv]: the value of the variable, empty when it is not set. *)
Definition os_Getenv (env : gmap string string) (key : string) : string :=
  default "" (env !! key).

(** [time.Second], in nanoseconds as [time.Duration] counts. *)
Definition time_Second : Z := 1000000000.

(** How [init] ends: [log.Fatal] prints its message and exits the
    process; otherwise the globals [service] and [client] are set, the
    client with its timeout. *)
Inductive Startup : Type :=
  | Fatal (message : string)
  | Started (service : GiteaService) (clientTimeout : Z).

Definition init (env : gmap string string) : Startup :=
  let giteaURL := os_Getenv env "GITEA_URL" in
  if decide (giteaURL = "") then
    Fatal "GITEA_URL environment variable is required"
  else
    let token := os_Getenv env "TOKEN" in
    if decide (token = "") then
      Fatal "TOKEN environment variable is required"
    else
      (* Create HTTP client with timeout; initialize service *)
      Started {| BaseURL := giteaURL; Token := token |} (10 * time_Second).

(** ** Vocabulary of the further properties *)

(** The URLs the two upstream operations build. *)
Definition repo_info_url (g : GiteaService) (owner repo : string) : string :=
  BaseURL g ++ "/api/v1/repos/" ++ owner ++ "/" ++ repo.

Definition commit_status_url (g : GiteaService) (owner repo branch : string) : string :=
  BaseURL g ++ "/api/v1/repos/" ++ owner ++ "/" ++ repo
    ++ "/commits/" ++ branch ++ "/status".

(** The requests handed to the transport among some events. *)
Definition client_requests (events : list Event) : list Request :=
  omap (λ e, match e with ClientDo req => Some req | _ => None end) events.

(** A request is a GET whose only header is the token authorization. *)
Definition is_authorized_get (token : string) (req : Request) : Prop :=
  Method req = "GET"
  ∧ req_Header req = <["Authorization" := ["token " ++ token]]> ∅.

(** A log line written for a body that failed to close. *)
Definition is_close_line (line : string) : Prop :=
  strings_HasPrefix line "Error closing response body: " = true.

(** The status codes [statusHandler] can answer with. *)
Definition status_codes : list Z := [200; 202; 204; 400; 405; 417; 500].

(** [url.Parse] refuses a URL with an ASCII control character; this
    library does so and is [exampleLib] otherwise. *)
Definition is_CTL (a : ascii) : bool :=
  (nat_of_ascii a <? 32)%nat || (nat_of_ascii a =? 127)%nat.

Fixpoint stringContainsCTLByte (s : string) : bool :=
  match s with
  | EmptyString => false
  | String a t => is_CTL a || stringContainsCTLByte t
  end.

Definition strictLib : GoLib := {|
  url_Parse := λ s,
    if stringContainsCTLByte s
    then Err "net/url: invalid control character in URL"
    else Ok {| url_String := s; url_Query := ∅ |};
  json_Decode_Repository := @json_Decode_Repository exampleLib;
  json_Decode_StatusResponse := @json_Decode_StatusResponse exampleLib;
  http_DetectContentType := @http_DetectContentType exampleLib |}.

(** The service of [TestGiteaService_GetDefaultBranch_RequestCreationError]:
    its base URL holds a tab. *)
Definition invalidService : GiteaService :=
  {| BaseURL := "ht" ++ String (ascii_of_nat 9) "tp://invalid-url";
     Token := "test-token" |}.

(** A response whose body fails to close, as [FailingReadCloser]. *)
Definition failingCloseResponse (statusCode : Z) (body : string) : Response :=
  {| StatusCode := statusCode;
     resp_Body := {| body_bytes := body;
                     body_closeErr := Some "simulated close error" |} |}.

(** Further upstream scenarios: the transport fails on the first call;
    it fails on the second; the status call is answered 500; both calls
    succeed; the same with a body that fails to close. *)
Definition world_network_error : World MockHTTPClient :=
  world0 (mockClient (Err "network error") (Err "unreachable")).

Definition world_status_timeout : World MockHTTPClient :=
  world0 (mockClient (Ok (createHTTPResponse 200 body_main))
                     (Err "connection timeout")).

Definition world_status_500 : World MockHTTPClient :=
  world0 (mockClient (Ok (createHTTPResponse 200 body_main))
                     (Ok (createHTTPResponse 500 "Internal Server Error"))).

Definition world_success : World MockHTTPClient :=
  world0 (mockClient (Ok (createHTTPResponse 200 body_main))
                     (Ok (createHTTPResponse 200 body_success))).

Definition world_success_failing_close : World MockHTTPClient :=
  world0 (mockClient (Ok (failingCloseResponse 200 body_main))
                     (Ok (failingCloseResponse 200 body_success))).

(** An environment with both required variables, and one without. *)
Definition env_complete : gmap string string :=
  <["GITEA_URL" := "https://git.example.com"]> (<["TOKEN" := "test-token"]> ∅).

Definition env_token_only : gmap string string :=
  <["TOKEN" := "test-token"]> ∅.

(** * Properties *)

(** ** Helper lemmas *)

Lemma strings_HasPrefix_app (p t : string) : strings_HasPrefix (p ++ t) p = true.
Proof.
  induction p as [|a p IH]; simpl; [reflexivity|].
  rewrite Ascii.eqb_refl. exact IH.
Qed.

Lemma strings_Contains_app (a p b : string) : strings_Contains (a ++ p ++ b) p = true.
Proof.
  induction a as [|x a IH]; simpl.
  - pose proof (strings_HasPrefix_app p b) as H.
    destruct (p ++ b); simpl; rewrite H; reflexivity.
  - rewrite IH. apply orb_true_r.
Qed.

Lemma symbolMap_other (s : string) :
  s ≠ "success" → s ≠ "failure" → s ≠ "error" →
  s ≠ "pending" → s ≠ "warning" → s ≠ "unknown" →
  symbolMap !! s = None.
Proof.
  intros. unfold symbolMap.
  rewrite !lookup_insert_ne by congruence. apply lookup_empty.
Qed.

Lemma codeMap_other (s : string) :
  s ≠ "success" → s ≠ "failure" → s ≠ "error" →
  s ≠ "pending" → s ≠ "warning" → s ≠ "unknown" →
  codeMap !! s = None.
Proof.
  intros. unfold codeMap.
  rewrite !lookup_insert_ne by congruence. apply lookup_empty.
Qed.


(** ** State mapper *)

(** C1. [mapStateToSymbol] and [mapStateToHTTPCode] are total and follow
    the fixed table: the six named states give (success, ✓, 200),
    (failure, ✗, 417), (error, ✗, 500), (pending, ●, 202),
    (warning, ⚠, 200), (unknown, ○, 204), and every other string,
    the empty one included, gives symbol "?" and code 200. *)
Theorem C1_state_mapper_table :
  (mapStateToSymbol "success" = "✓" ∧ mapStateToHTTPCode "success" = 200)
  ∧ (mapStateToSymbol "failure" = "✗" ∧ mapStateToHTTPCode "failure" = 417)
  ∧ (mapStateToSymbol "error" = "✗" ∧ mapStateToHTTPCode "error" = 500)
  ∧ (mapStateToSymbol "pending" = "●" ∧ mapStateToHTTPCode "pending" = 202)
  ∧ (mapStateToSymbol "warning" = "⚠" ∧ mapStateToHTTPCode "warning" = 200)
  ∧ (mapStateToSymbol "unknown" = "○" ∧ mapStateToHTTPCode "unknown" = 204)
  ∧ (mapStateToSymbol "" = "?" ∧ mapStateToHTTPCode "" = 200)
  ∧ ∀ s : string,
      s ∉ ["success"; "failure"; "error"; "pending"; "warning"; "unknown"] →
      mapStateToSymbol s = "?" ∧ mapStateToHTTPCode s = 200.
Proof.
  repeat (split; [split; vm_compute; reflexivity|]).
  intros s Hs. rewrite !not_elem_of_cons in Hs.
  destruct Hs as (H1 & H2 & H3 & H4 & H5 & H6 & _).
  unfold mapStateToSymbol, mapStateToHTTPCode.
  rewrite symbolMap_other, codeMap_other by assumption.
  split; reflexivity.
Qed.

Lemma C1_state_mapper_table_witness :
  mapStateToSymbol "SUCCESS" = "?" ∧ mapStateToHTTPCode "SUCCESS" = 200.
Proof.
  apply (proj2 (proj2 (proj2 (proj2 (proj2 (proj2 (proj2
           C1_state_mapper_table))))))).
  vm_compute. intros H. repeat (inversion H as [|? ? ? H']; clear H; rename H' into H).
Defined.

(** ** The handlers *)

Section Properties.
Context {C : Type} `{!HTTPClient C} `{!GoLib}.
Variable service : GiteaService.

Lemma encode_or_log_answer (code : Z) (doc : json) (σ : World C) :
  encode_or_log
    (WriteHeader (w_Header_Set NewRecorder "Content-Type" "application/json") code)
    doc σ
  = (json_answer code doc, σ).
Proof. reflexivity. Qed.

Lemma json_answer_content_type (code : Z) (doc : json) :
  w_Header_Get (json_answer code doc) "Content-Type" = "application/json".
Proof. reflexivity. Qed.

(** *** The upstream operations, step by step *)

Lemma defer_Close_run {A} (b : Body) (m : M C A) (σ : World C) :
  defer_Close b m σ
  = let '(a, σ1) := m σ in
    (a, mkWorld (transport σ1) (trace σ1 ++ [BodyClose]) (logs σ1 ++ close_logs b)).
Proof.
  unfold defer_Close, close_logs, bind. destruct (m σ) as [a σ1]. simpl.
  destruct (body_closeErr b); simpl; [reflexivity|].
  rewrite app_nil_r. reflexivity.
Qed.

Lemma GetDefaultBranch_non_200 (g : GiteaService) (owner repo : string) (σ : World C)
    (u : URL) (resp : Response) (c' : C) :
  repo_info_answers g (transport σ) owner repo u resp c' →
  StatusCode resp ≠ StatusOK →
  GetDefaultBranch g owner repo σ
  = (Err ("failed to get repository info: " ++ pretty (StatusCode resp)
          ++ " - " ++ body_bytes (resp_Body resp)),
     mkWorld c'
       (trace σ ++ [CallGetDefaultBranch owner repo; ClientDo (authorized_get g u);
                    BodyReadAll; BodyClose])
       (logs σ ++ close_logs (resp_Body resp))).
Proof.
  intros [Hu Hdo] Hcode.
  unfold GetDefaultBranch, http_NewRequest, bind at 1, emit at 1.
  rewrite Hu. unfold bind at 1, HTTPClient_Do. simpl.
  change (req_Header_Set _ _ _) with (authorized_get g u).
  rewrite Hdo. rewrite defer_Close_run.
  rewrite decide_True by exact Hcode.
  unfold io_ReadAll, bind, emit, ret. simpl.
  rewrite <- !app_assoc. reflexivity.
Qed.

Lemma GetDefaultBranch_200 (g : GiteaService) (owner repo : string) (σ : World C)
    (u : URL) (resp : Response) (c' : C) :
  repo_info_answers g (transport σ) owner repo u resp c' →
  StatusCode resp = StatusOK →
  GetDefaultBranch g owner repo σ
  = (match json_Decode_Repository (body_bytes (resp_Body resp)) with
     | Err err => Err err
     | Ok repository => Ok (DefaultBranch repository)
     end,
     mkWorld c'
       (trace σ ++ [CallGetDefaultBranch owner repo; ClientDo (authorized_get g u);
                    BodyDecode; BodyClose])
       (logs σ ++ close_logs (resp_Body resp))).
Proof.
  intros [Hu Hdo] Hcode.
  unfold GetDefaultBranch, http_NewRequest, bind at 1, emit at 1.
  rewrite Hu. unfold bind at 1, HTTPClient_Do. simpl.
  change (req_Header_Set _ _ _) with (authorized_get g u).
  rewrite Hdo. rewrite defer_Close_run.
  rewrite decide_False by (intros Hne; exact (Hne Hcode)).
  unfold bind, emit, ret. simpl.
  destruct (json_Decode_Repository _); simpl; rewrite <- !app_assoc; reflexivity.
Qed.

Lemma GetCommitStatus_404 (g : GiteaService) (owner repo branch : string) (σ : World C)
    (u : URL) (resp : Response) (c' : C) :
  commit_status_answers g (transport σ) owner repo branch u resp c' →
  StatusCode resp = StatusNotFound →
  GetCommitStatus g owner repo branch σ
  = (Ok {| sr_State := "unknown"; sr_Statuses := []; sr_TotalCount := 0 |},
     mkWorld c'
       (trace σ ++ [CallGetCommitStatus owner repo branch;
                    ClientDo (authorized_get g u); BodyClose])
       (logs σ ++ close_logs (resp_Body resp))).
Proof.
  intros [Hu Hdo] Hcode.
  unfold GetCommitStatus, http_NewRequest, bind at 1, emit at 1.
  rewrite Hu. unfold bind at 1, HTTPClient_Do. simpl.
  change (req_Header_Set _ _ _) with (authorized_get g u).
  rewrite Hdo. rewrite defer_Close_run.
  rewrite decide_True by exact Hcode.
  unfold ret. simpl. rewrite <- !app_assoc. reflexivity.
Qed.

(** Every call of [GetCommitStatus] enters the operation first: its
    event follows the events so far, whatever happens next. *)
Lemma GetCommitStatus_enters (g : GiteaService) (owner repo branch : string) (σ : World C) :
  ∃ rest, trace (GetCommitStatus g owner repo branch σ).2
          = (trace σ ++ CallGetCommitStatus owner repo branch :: rest)%list.
Proof.
  unfold GetCommitStatus, http_NewRequest, bind at 1, emit at 1.
  destruct (url_Parse _) as [u|e].
  - unfold bind at 1, HTTPClient_Do. simpl.
    destruct (Do (transport σ) _) as [c' [resp|e]].
    + rewrite defer_Close_run.
      repeat case_decide; unfold io_ReadAll, bind, emit, ret; simpl;
        try destruct (json_Decode_StatusResponse _); simpl;
        rewrite <- !app_assoc; eexists; reflexivity.
    + unfold ret. simpl. rewrite <- !app_assoc. eexists; reflexivity.
  - unfold ret. simpl. eexists; reflexivity.
Qed.

(** *** The handlers *)

(** C7. A request to [/status] whose method is not GET is answered 405
    before anything else happens: whatever its query holds, the answer is
    the plain-text rejection and not the validation body, and the world
    is left as it was, so no upstream operation was entered and the
    transport saw no request. *)
Theorem C7_other_method_rejected_first (r : Request) (σ : World C) :
  Method r ≠ MethodGet →
  ∃ w', statusHandler service NewRecorder r σ = (w', σ)
        ∧ Code w' = StatusMethodNotAllowed
        ∧ rec_Body w' = [TextLine "Method not allowed"].
Proof.
  intros Hm. unfold statusHandler.
  rewrite decide_True by exact Hm.
  eexists. split; [reflexivity|]. split; reflexivity.
Qed.

(** C3. A GET request whose [owner] or [repo] query value is empty or
    absent is answered 400 with the fixed validation message in the
    [error] member, and the world is left as it was: neither
    [GetDefaultBranch] nor [GetCommitStatus] was entered. *)
Theorem C3_missing_parameter_is_400 (r : Request) (σ : World C) :
  Method r = MethodGet →
  owner_of r = "" ∨ repo_of r = "" →
  ∃ w', statusHandler service NewRecorder r σ = (w', σ)
        ∧ Code w' = StatusBadRequest
        ∧ rec_Body w' =
            [JSONLine (JObject
               [("owner", JString ""); ("repository", JString "");
                ("branch", JString ""); ("state", JString "");
                ("symbol", JString "");
                ("error", JString "Both 'owner' and 'repo' query parameters are required")])].
Proof.
  intros Hm Hq. unfold statusHandler.
  rewrite decide_False by (intros Hne; exact (Hne Hm)).
  rewrite decide_True by exact Hq.
  rewrite encode_or_log_answer.
  eexists. split; [reflexivity|]. split; reflexivity.
Qed.

(** C9. [healthHandler] answers every request, whatever its method, with
    status 200 and the JSON body [{"status":"ok"}]; it looks at nothing
    of the request and leaves the world as it was. *)
Theorem C9_health_ignores_method (r : Request) (σ : World C) :
  ∃ w', healthHandler NewRecorder r σ = (w', σ)
        ∧ Code w' = StatusOK
        ∧ rec_Body w' = [JSONLine (JObject [("status", JString "ok")])]
        ∧ w_Header_Get w' "Content-Type" = "application/json".
Proof.
  eexists. split; [reflexivity|]. repeat split; reflexivity.
Qed.

(** C5. When the upstream answers the commit-status call with 404,
    [GetCommitStatus] does not fail: it returns state "unknown", no
    statuses and a total count of 0. After the call to the transport the
    body is only closed: it is neither read nor decoded. *)
Theorem C5_status_404_is_unknown (g : GiteaService) (owner repo branch : string)
    (σ : World C) (u : URL) (resp : Response) (c' : C) :
  commit_status_answers g (transport σ) owner repo branch u resp c' →
  StatusCode resp = StatusNotFound →
  ∃ σ', GetCommitStatus g owner repo branch σ
        = (Ok {| sr_State := "unknown"; sr_Statuses := []; sr_TotalCount := 0 |}, σ')
        ∧ trace σ' = (trace σ ++ [CallGetCommitStatus owner repo branch;
                                  ClientDo (authorized_get g u); BodyClose])%list.
Proof.
  intros Hans Hcode.
  rewrite (GetCommitStatus_404 g owner repo branch σ u resp c' Hans Hcode).
  eexists. split; reflexivity.
Qed.

(** C6. A GET request with non-empty owner and repo whose
    repository-info call is answered with a status other than 200 gets
    500, a body with owner and repository as requested, branch, state
    and symbol empty, and a non-empty error text that contains the
    upstream status code. *)
Theorem C6_repo_info_failure_is_500 (r : Request) (σ : World C)
    (u : URL) (resp : Response) (c' : C) :
  Method r = MethodGet →
  owner_of r ≠ "" → repo_of r ≠ "" →
  repo_info_answers service (transport σ) (owner_of r) (repo_of r) u resp c' →
  StatusCode resp ≠ StatusOK →
  ∃ w' σ' e,
    statusHandler service NewRecorder r σ = (w', σ')
    ∧ Code w' = StatusInternalServerError
    ∧ rec_Body w' =
        [JSONLine (JObject
           [("owner", JString (owner_of r)); ("repository", JString (repo_of r));
            ("branch", JString ""); ("state", JString "");
            ("symbol", JString ""); ("error", JString e)])]
    ∧ e ≠ ""
    ∧ strings_Contains e (pretty (StatusCode resp)) = true.
Proof.
  intros Hm Ho Hr Hans Hcode. unfold statusHandler.
  rewrite decide_False by (intros Hne; exact (Hne Hm)).
  fold (owner_of r) (repo_of r).
  rewrite decide_False by (intros [?|?]; contradiction).
  unfold bind at 1, getDefaultBranch.
  rewrite (GetDefaultBranch_non_200 _ _ _ _ u resp c' Hans Hcode).
  rewrite encode_or_log_answer.
  eexists _, _, _. split; [reflexivity|]. split; [reflexivity|].
  split; [|split].
  - unfold json_answer, Marshal_BuildStatusResponse. simpl. reflexivity.
  - discriminate.
  - apply (strings_Contains_app
             "Failed to get repository info: failed to get repository info: ").
Qed.


(** C10. When the repository-info response has status 200 and decodes to
    an empty default branch, [GetDefaultBranch] succeeds with the empty
    string, and the handler goes on: it calls [GetCommitStatus] with the
    empty branch, and its answer is the one built from that call's
    result, not a repository-info error. *)
Theorem C10_empty_default_branch_goes_on (r : Request) (σ : World C)
    (u : URL) (resp : Response) (c' : C) :
  Method r = MethodGet →
  owner_of r ≠ "" → repo_of r ≠ "" →
  repo_info_answers service (transport σ) (owner_of r) (repo_of r) u resp c' →
  StatusCode resp = StatusOK →
  json_Decode_Repository (body_bytes (resp_Body resp)) = Ok {| DefaultBranch := "" |} →
  ∃ σ1,
    GetDefaultBranch service (owner_of r) (repo_of r) σ = (Ok "", σ1)
    ∧ statusHandler service NewRecorder r σ
      = (let '(s, σ2) := GetCommitStatus service (owner_of r) (repo_of r) "" σ1 in
         match s with
         | Err err =>
           (json_answer StatusInternalServerError
              (Marshal_BuildStatusResponse
                 {| Owner := owner_of r; Repository_ := repo_of r; Branch := "";
                    State := ""; Symbol := "";
                    Error := "Failed to get commit status: " ++ err |}), σ2)
         | Ok status =>
           (json_answer (mapStateToHTTPCode (sr_State status))
              (Marshal_BuildStatusResponse
                 {| Owner := owner_of r; Repository_ := repo_of r; Branch := "";
                    State := sr_State status;
                    Symbol := mapStateToSymbol (sr_State status);
                    Error := "" |}), σ2)
         end)
    ∧ ∃ rest, trace (statusHandler service NewRecorder r σ).2
              = (trace σ1 ++ CallGetCommitStatus (owner_of r) (repo_of r) "" :: rest)%list.
Proof.
  intros Hm Ho Hr Hans Hcode Hdec.
  pose proof (GetDefaultBranch_200 _ _ _ _ u resp c' Hans Hcode) as Hrun.
  rewrite Hdec in Hrun. simpl DefaultBranch in Hrun.
  match type of Hrun with _ = (_, ?w) => set (σ1 := w) in * end.
  exists σ1. split; [exact Hrun|].
  assert (statusHandler service NewRecorder r σ
          = (let! s := getCommitStatus service (owner_of r) (repo_of r) "" in
             match s with
             | Err err =>
               encode_or_log
                 (WriteHeader (w_Header_Set NewRecorder "Content-Type" "application/json")
                    StatusInternalServerError)
                 (Marshal_BuildStatusResponse
                    {| Owner := owner_of r; Repository_ := repo_of r; Branch := "";
                       State := ""; Symbol := "";
                       Error := "Failed to get commit status: " ++ err |})
             | Ok status =>
               encode_or_log
                 (WriteHeader (w_Header_Set NewRecorder "Content-Type" "application/json")
                    (mapStateToHTTPCode (sr_State status)))
                 (Marshal_BuildStatusResponse
                    {| Owner := owner_of r; Repository_ := repo_of r; Branch := "";
                       State := sr_State status;
                       Symbol := mapStateToSymbol (sr_State status);
                       Error := "" |})
             end) σ1) as Hgo.
  { unfold statusHandler.
    rewrite decide_False by (intros Hne; exact (Hne Hm)).
    fold (owner_of r) (repo_of r).
    rewrite decide_False by (intros [?|?]; contradiction).
    unfold bind at 1, getDefaultBranch. rewrite Hrun. reflexivity. }
  rewrite Hgo. unfold bind, getCommitStatus.
  match goal with |- context [GetCommitStatus ?g ?o ?p ?b ?w] =>
    destruct (GetCommitStatus_enters g o p b w) as [rest Hrest];
    destruct (GetCommitStatus g o p b w) as [s σ2] end.
  split.
  - destruct s; rewrite encode_or_log_answer; reflexivity.
  - exists rest. destruct s; rewrite encode_or_log_answer; exact Hrest.
Qed.

(** *** Every path of [statusHandler] *)

Lemma statusHandler_other_method (r : Request) (σ : World C) :
  Method r ≠ MethodGet →
  statusHandler service NewRecorder r σ
  = (http_Error NewRecorder "Method not allowed" StatusMethodNotAllowed, σ).
Proof.
  intros Hm. unfold statusHandler. rewrite decide_True by exact Hm. reflexivity.
Qed.

Lemma statusHandler_GET (r : Request) (σ : World C) :
  Method r = MethodGet →
  ∃ code v,
    (statusHandler service NewRecorder r σ).1
    = json_answer code (Marshal_BuildStatusResponse v)
    ∧ status_answer r code v.
Proof.
  intros Hm. unfold statusHandler.
  rewrite decide_False by (intros Hne; exact (Hne Hm)).
  fold (owner_of r) (repo_of r).
  case_decide as Hq.
  { rewrite encode_or_log_answer. eexists _, _. split; [reflexivity|].
    constructor. exact Hq. }
  assert (owner_of r ≠ "" ∧ repo_of r ≠ "") as [Ho Hr].
  { split; intros E; apply Hq; [left|right]; exact E. }
  unfold bind at 1.
  destruct (getDefaultBranch service (owner_of r) (repo_of r) σ) as [[branch|err] σ1].
  - unfold bind at 1.
    destruct (getCommitStatus service (owner_of r) (repo_of r) branch σ1)
      as [[status|err] σ2];
      rewrite encode_or_log_answer; eexists _, _; (split; [reflexivity|]);
      constructor; assumption.
  - rewrite encode_or_log_answer. eexists _, _. split; [reflexivity|].
    constructor; assumption.
Qed.

Lemma get_field_Marshal (v : BuildStatusResponse) :
  let doc := Marshal_BuildStatusResponse v in
  get_field doc "owner" = Some (JString (Owner v))
  ∧ get_field doc "repository" = Some (JString (Repository_ v))
  ∧ get_field doc "branch" = Some (JString (Branch v))
  ∧ get_field doc "state" = Some (JString (State v))
  ∧ get_field doc "symbol" = Some (JString (Symbol v))
  ∧ get_field doc "error" = (if decide (Error v = "") then None
                             else Some (JString (Error v))).
Proof.
  unfold Marshal_BuildStatusResponse.
  repeat split; try reflexivity.
  destruct (decide (Error v = "")); reflexivity.
Qed.





(** C4, as the handler has it. Every answer of [statusHandler] to a GET
    request (the 400 validation answer, the two 500 answers and the
    success answer) carries [Content-Type: application/json]; the
    rejection of another method is written by [http.Error] and carries
    [text/plain; charset=utf-8]. *)
Theorem C4_content_type_by_method (r : Request) (σ : World C) :
  (Method r = MethodGet →
   w_Header_Get (statusHandler service NewRecorder r σ).1 "Content-Type"
   = "application/json")
  ∧ (Method r ≠ MethodGet →
     w_Header_Get (statusHandler service NewRecorder r σ).1 "Content-Type"
     = "text/plain; charset=utf-8").
Proof.
  split; intros Hm.
  - destruct (statusHandler_GET r σ Hm) as (code & v & -> & _).
    apply json_answer_content_type.
  - rewrite (statusHandler_other_method r σ Hm). reflexivity.
Qed.

End Properties.

(** ** The properties at the scenarios of the tests *)

Lemma C7_other_method_rejected_first_witness :
  ∃ w', statusHandler exampleService NewRecorder postAcmeWidget world_main_404
        = (w', world_main_404)
        ∧ Code w' = StatusMethodNotAllowed
        ∧ rec_Body w' = [TextLine "Method not allowed"].
Proof.
  apply (C7_other_method_rejected_first exampleService postAcmeWidget world_main_404).
  vm_compute. discriminate.
Defined.

Lemma C3_missing_parameter_is_400_witness :
  ∃ w', statusHandler exampleService NewRecorder getAcmeOnly world_main_404
        = (w', world_main_404)
        ∧ Code w' = StatusBadRequest
        ∧ rec_Body w' =
            [JSONLine (JObject
               [("owner", JString ""); ("repository", JString "");
                ("branch", JString ""); ("state", JString "");
                ("symbol", JString "");
                ("error", JString "Both 'owner' and 'repo' query parameters are required")])].
Proof.
  apply (C3_missing_parameter_is_400 exampleService getAcmeOnly world_main_404).
  - reflexivity.
  - right. vm_compute. reflexivity.
Defined.

Lemma C5_status_404_is_unknown_witness :
  ∃ σ', GetCommitStatus exampleService "acme" "widget" "main" world_status_404
        = (Ok {| sr_State := "unknown"; sr_Statuses := []; sr_TotalCount := 0 |}, σ')
        ∧ trace σ' =
            [CallGetCommitStatus "acme" "widget" "main";
             ClientDo (authorized_get exampleService
                         {| url_String :=
                              "https://git.example.com/api/v1/repos/acme/widget/commits/main/status";
                            url_Query := ∅ |});
             BodyClose].
Proof.
  apply (C5_status_404_is_unknown exampleService "acme" "widget" "main" world_status_404
           _ (createHTTPResponse 404 "Not Found")
           (mkMock 1 (DoFunc (transport world_status_404)))).
  - split; reflexivity.
  - reflexivity.
Defined.

Lemma C6_repo_info_failure_is_500_witness :
  ∃ w' σ' e,
    statusHandler exampleService NewRecorder getAcmeWidget world_repo_404 = (w', σ')
    ∧ Code w' = StatusInternalServerError
    ∧ rec_Body w' =
        [JSONLine (JObject
           [("owner", JString (owner_of getAcmeWidget));
            ("repository", JString (repo_of getAcmeWidget));
            ("branch", JString ""); ("state", JString "");
            ("symbol", JString ""); ("error", JString e)])]
    ∧ e ≠ ""
    ∧ strings_Contains e (pretty (StatusCode (createHTTPResponse 404 "Repository not found")))
      = true.
Proof.
  apply (C6_repo_info_failure_is_500 exampleService getAcmeWidget world_repo_404
           {| url_String := "https://git.example.com/api/v1/repos/acme/widget";
              url_Query := ∅ |}
           (createHTTPResponse 404 "Repository not found")
           (mkMock 1 (DoFunc (transport world_repo_404)))).
  - reflexivity.
  - vm_compute. discriminate.
  - vm_compute. discriminate.
  - split; reflexivity.
  - vm_compute. discriminate.
Defined.


Lemma C10_empty_default_branch_goes_on_witness :
  ∃ σ1,
    GetDefaultBranch exampleService "acme" "widget" world_no_default_branch = (Ok "", σ1)
    ∧ Code (statusHandler exampleService NewRecorder getAcmeWidget
              world_no_default_branch).1 = StatusOK
    ∧ ∃ rest, trace (statusHandler exampleService NewRecorder getAcmeWidget
                       world_no_default_branch).2
              = (trace σ1 ++ CallGetCommitStatus "acme" "widget" "" :: rest)%list.
Proof.
  destruct (C10_empty_default_branch_goes_on exampleService getAcmeWidget
              world_no_default_branch
              {| url_String := "https://git.example.com/api/v1/repos/acme/widget";
                 url_Query := ∅ |}
              (createHTTPResponse 200 "{}")
              (mkMock 1 (DoFunc (transport world_no_default_branch))))
    as (σ1 & Hbranch & _ & Htrace).
  - reflexivity.
  - vm_compute. discriminate.
  - vm_compute. discriminate.
  - split; reflexivity.
  - reflexivity.
  - reflexivity.
  - exists σ1. split; [exact Hbranch|]. split; [reflexivity | exact Htrace].
Defined.

(** The claim C4 as the specification states it fails on the
    method-not-allowed answer: a POST to [/status] is answered with
    [Content-Type: text/plain; charset=utf-8]. *)
Lemma C4_every_answer_is_json_counterexample :
  ¬ (∀ (r : Request) (σ : World MockHTTPClient),
       w_Header_Get (statusHandler exampleService NewRecorder r σ).1 "Content-Type"
       = "application/json").
Proof.
  intros Hall. specialize (Hall postAcmeWidget world_main_404).
  vm_compute in Hall. discriminate Hall.
Defined.

Lemma C4_content_type_by_method_witness :
  w_Header_Get (statusHandler exampleService NewRecorder getAcmeWidget world_main_404).1
    "Content-Type" = "application/json"
  ∧ w_Header_Get (statusHandler exampleService NewRecorder postAcmeWidget world_main_404).1
      "Content-Type" = "text/plain; charset=utf-8".
Proof.
  split.
  - apply (proj1 (C4_content_type_by_method exampleService getAcmeWidget world_main_404)).
    reflexivity.
  - apply (proj2 (C4_content_type_by_method exampleService postAcmeWidget world_main_404)).
    vm_compute. discriminate.
Defined.




(** ** End to end, as in [TestStatusHandler] *)

Example successful_request :
  (statusHandler exampleService NewRecorder getAcmeWidget
     (world0 (mockClient (Ok (createHTTPResponse 200 body_main))
                         (Ok (createHTTPResponse 200 body_success))))).1
  = json_answer 200
      (JObject [("owner", JString "acme"); ("repository", JString "widget");
                ("branch", JString "main"); ("state", JString "success");
                ("symbol", JString "✓")]).
Proof. vm_compute. reflexivity. Qed.

Example network_error_on_status :
  (statusHandler exampleService NewRecorder getAcmeWidget
     (world0 (mockClient (Ok (createHTTPResponse 200 body_main))
                         (Err "connection timeout")))).1
  = json_answer 500
      (JObject [("owner", JString "acme"); ("repository", JString "widget");
                ("branch", JString "main"); ("state", JString "");
                ("symbol", JString "");
                ("error", JString "Failed to get commit status: connection timeout")]).
Proof. vm_compute. reflexivity. Qed.

(** * Further properties of the code *)

(** ** State mapper: reading the tables backwards *)

Lemma codeMap_lookup_cases (s : string) :
  (s = "success" ∧ codeMap !! s = Some 200)
  ∨ (s = "failure" ∧ codeMap !! s = Some 417)
  ∨ (s = "error" ∧ codeMap !! s = Some 500)
  ∨ (s = "pending" ∧ codeMap !! s = Some 202)
  ∨ (s = "warning" ∧ codeMap !! s = Some 200)
  ∨ (s = "unknown" ∧ codeMap !! s = Some 204)
  ∨ codeMap !! s = None.
Proof.
  destruct (decide (s = "success")) as [->|?]; [left; split; reflexivity|right].
  destruct (decide (s = "failure")) as [->|?]; [left; split; reflexivity|right].
  destruct (decide (s = "error")) as [->|?]; [left; split; reflexivity|right].
  destruct (decide (s = "pending")) as [->|?]; [left; split; reflexivity|right].
  destruct (decide (s = "warning")) as [->|?]; [left; split; reflexivity|right].
  destruct (decide (s = "unknown")) as [->|?]; [left; split; reflexivity|right].
  apply codeMap_other; assumption.
Qed.

Lemma symbolMap_lookup_cases (s : string) :
  (s = "success" ∧ symbolMap !! s = Some "✓")
  ∨ (s = "failure" ∧ symbolMap !! s = Some "✗")
  ∨ (s = "error" ∧ symbolMap !! s = Some "✗")
  ∨ (s = "pending" ∧ symbolMap !! s = Some "●")
  ∨ (s = "warning" ∧ symbolMap !! s = Some "⚠")
  ∨ (s = "unknown" ∧ symbolMap !! s = Some "○")
  ∨ symbolMap !! s = None.
Proof.
  destruct (decide (s = "success")) as [->|?]; [left; split; reflexivity|right].
  destruct (decide (s = "failure")) as [->|?]; [left; split; reflexivity|right].
  destruct (decide (s = "error")) as [->|?]; [left; split; reflexivity|right].
  destruct (decide (s = "pending")) as [->|?]; [left; split; reflexivity|right].
  destruct (decide (s = "warning")) as [->|?]; [left; split; reflexivity|right].
  destruct (decide (s = "unknown")) as [->|?]; [left; split; reflexivity|right].
  apply symbolMap_other; assumption.
Qed.

(** X1. The codes of the mapper name their state: 417 is answered for
    "failure" only, 500 for "error" only, 202 for "pending" only and 204
    for "unknown" only; every other state, known or not, gives 200. *)
Theorem mapStateToHTTPCode_inverse (s : string) :
  (mapStateToHTTPCode s = 417 ↔ s = "failure")
  ∧ (mapStateToHTTPCode s = 500 ↔ s = "error")
  ∧ (mapStateToHTTPCode s = 202 ↔ s = "pending")
  ∧ (mapStateToHTTPCode s = 204 ↔ s = "unknown")
  ∧ (mapStateToHTTPCode s = 200 ↔
       s ∉ ["failure"; "error"; "pending"; "unknown"]).
Proof.
  unfold mapStateToHTTPCode.
  destruct (codeMap_lookup_cases s)
    as [[-> ->]|[[-> ->]|[[-> ->]|[[-> ->]|[[-> ->]|[[-> ->]|Hn]]]]]].
  1-6: rewrite !not_elem_of_cons; unfold StatusOK;
       repeat split; intros; try discriminate; try reflexivity;
       try (exfalso; lia); try (intros ?%elem_of_nil; assumption);
       intuition congruence.
  rewrite Hn, !not_elem_of_cons.
  assert (codeMap !! "failure" ≠ None ∧ codeMap !! "error" ≠ None
          ∧ codeMap !! "pending" ≠ None ∧ codeMap !! "unknown" ≠ None)
    as (Hf & He & Hp & Hu) by (repeat split; discriminate).
  unfold StatusOK.
  repeat split; intros; try discriminate; try reflexivity;
    try (subst s; contradiction); try (intros ->; contradiction);
    try (intros ?%elem_of_nil; assumption).
Qed.

(** X2. The symbols name their state up to the one shared symbol: "✓" is
    shown for "success" only, "○" for "unknown" only, "✗" for "failure"
    and "error", and "?" exactly for the states outside the table. *)
Theorem mapStateToSymbol_inverse (s : string) :
  (mapStateToSymbol s = "✓" ↔ s = "success")
  ∧ (mapStateToSymbol s = "○" ↔ s = "unknown")
  ∧ (mapStateToSymbol s = "✗" ↔ s = "failure" ∨ s = "error")
  ∧ (mapStateToSymbol s = "?" ↔
       s ∉ ["success"; "failure"; "error"; "pending"; "warning"; "unknown"]).
Proof.
  unfold mapStateToSymbol.
  destruct (symbolMap_lookup_cases s)
    as [[-> ->]|[[-> ->]|[[-> ->]|[[-> ->]|[[-> ->]|[[-> ->]|Hn]]]]]].
  1-6: rewrite !not_elem_of_cons;
       repeat split; intros; try discriminate; try reflexivity;
       try (left; reflexivity); try (right; reflexivity);
       intuition discriminate.
  rewrite Hn, !not_elem_of_cons.
  assert (symbolMap !! "success" ≠ None ∧ symbolMap !! "unknown" ≠ None
          ∧ symbolMap !! "failure" ≠ None ∧ symbolMap !! "error" ≠ None
          ∧ symbolMap !! "pending" ≠ None ∧ symbolMap !! "warning" ≠ None)
    as (H1 & H2 & H3 & H4 & H5 & H6) by (repeat split; discriminate).
  repeat split; intros; try discriminate; try reflexivity;
    try (subst s; contradiction); try (intros ->; contradiction);
    try (intros ?%elem_of_nil; assumption).
  match goal with Hor : _ ∨ _ |- _ => destruct Hor as [->| ->]; contradiction end.
Qed.

(** ** The upstream operations on every path *)

Section Operations.
Context {C : Type} `{!HTTPClient C} `{!GoLib}.

(** [GetDefaultBranch] path by path: the result, the transport, the events
    and the log lines it adds. *)
Lemma GetDefaultBranch_run (g : GiteaService) (owner repo : string) (σ : World C) :
  GetDefaultBranch g owner repo σ
  = match url_Parse (repo_info_url g owner repo) with
    | Err e =>
      (Err e, mkWorld (transport σ)
                (trace σ ++ [CallGetDefaultBranch owner repo]) (logs σ))
    | Ok u =>
      match Do (transport σ) (authorized_get g u) with
      | (c', Err e) =>
        (Err e, mkWorld c'
                  (trace σ ++ [CallGetDefaultBranch owner repo;
                               ClientDo (authorized_get g u)])
                  (logs σ))
      | (c', Ok resp) =>
        if decide (StatusCode resp ≠ StatusOK) then
          (Err ("failed to get repository info: " ++ pretty (StatusCode resp)
                ++ " - " ++ body_bytes (resp_Body resp)),
           mkWorld c'
             (trace σ ++ [CallGetDefaultBranch owner repo;
                          ClientDo (authorized_get g u); BodyReadAll; BodyClose])
             (logs σ ++ close_logs (resp_Body resp)))
        else
          (match json_Decode_Repository (body_bytes (resp_Body resp)) with
           | Err err => Err err
           | Ok repository => Ok (DefaultBranch repository)
           end,
           mkWorld c'
             (trace σ ++ [CallGetDefaultBranch owner repo;
                          ClientDo (authorized_get g u); BodyDecode; BodyClose])
             (logs σ ++ close_logs (resp_Body resp)))
      end
    end.
Proof.
  destruct (url_Parse (repo_info_url g owner repo)) as [u|e] eqn:Hu.
  - destruct (Do (transport σ) (authorized_get g u)) as [c' [resp|e]] eqn:Hdo.
    + case_decide as Hcode.
      * apply GetDefaultBranch_non_200; [split|]; assumption.
      * apply GetDefaultBranch_200; [split; assumption|].
        destruct (decide (StatusCode resp = StatusOK)); [assumption|contradiction].
    + unfold GetDefaultBranch, http_NewRequest, bind at 1, emit at 1.
      unfold repo_info_url in Hu. rewrite Hu.
      unfold bind at 1, HTTPClient_Do. simpl.
      change (req_Header_Set _ _ _) with (authorized_get g u).
      rewrite Hdo. unfold ret. rewrite <- !app_assoc. reflexivity.
  - unfold GetDefaultBranch, http_NewRequest, bind at 1, emit at 1.
    unfold repo_info_url in Hu. rewrite Hu. reflexivity.
Qed.

(** The same for [GetCommitStatus]. *)
Lemma GetCommitStatus_run (g : GiteaService) (owner repo branch : string) (σ : World C) :
  GetCommitStatus g owner repo branch σ
  = match url_Parse (commit_status_url g owner repo branch) with
    | Err e =>
      (Err e, mkWorld (transport σ)
                (trace σ ++ [CallGetCommitStatus owner repo branch]) (logs σ))
    | Ok u =>
      match Do (transport σ) (authorized_get g u) with
      | (c', Err e) =>
        (Err e, mkWorld c'
                  (trace σ ++ [CallGetCommitStatus owner repo branch;
                               ClientDo (authorized_get g u)])
                  (logs σ))
      | (c', Ok resp) =>
        if decide (StatusCode resp = StatusNotFound) then
          (Ok {| sr_State := "unknown"; sr_Statuses := []; sr_TotalCount := 0 |},
           mkWorld c'
             (trace σ ++ [CallGetCommitStatus owner repo branch;
                          ClientDo (authorized_get g u); BodyClose])
             (logs σ ++ close_logs (resp_Body resp)))
        else if decide (StatusCode resp ≠ StatusOK) then
          (Err ("failed to get commit status: " ++ pretty (StatusCode resp)
                ++ " - " ++ body_bytes (resp_Body resp)),
           mkWorld c'
             (trace σ ++ [CallGetCommitStatus owner repo branch;
                          ClientDo (authorized_get g u); BodyReadAll; BodyClose])
             (logs σ ++ close_logs (resp_Body resp)))
        else
          (json_Decode_StatusResponse (body_bytes (resp_Body resp)),
           mkWorld c'
             (trace σ ++ [CallGetCommitStatus owner repo branch;
                          ClientDo (authorized_get g u); BodyDecode; BodyClose])
             (logs σ ++ close_logs (resp_Body resp)))
      end
    end.
Proof.
  unfold GetCommitStatus, http_NewRequest, bind at 1, emit at 1.
  fold (commit_status_url g owner repo branch).
  destruct (url_Parse (commit_status_url g owner repo branch)) as [u|e];
    [|reflexivity].
  unfold bind at 1, HTTPClient_Do. simpl.
  change (req_Header_Set _ _ _) with (authorized_get g u).
  destruct (Do (transport σ) (authorized_get g u)) as [c' [resp|e]].
  - rewrite defer_Close_run.
    repeat case_decide; unfold io_ReadAll, bind, emit, ret; simpl;
      try destruct (json_Decode_StatusResponse _); simpl;
      rewrite <- !app_assoc; reflexivity.
  - unfold ret. rewrite <- !app_assoc. reflexivity.
Qed.

Lemma strings_Contains_end (a b c p : string) :
  strings_Contains (a ++ b ++ c ++ p) p = true.
Proof.
  assert (Hrefl : ∀ q, strings_HasPrefix q q = true).
  { induction q as [|x q IH]; simpl; [reflexivity|].
    rewrite Ascii.eqb_refl. exact IH. }
  assert (Hself : strings_Contains p p = true).
  { destruct p; simpl; [reflexivity|].
    rewrite Ascii.eqb_refl, Hrefl. reflexivity. }
  assert (Happ : ∀ d e, strings_Contains e p = true → strings_Contains (d ++ e) p = true).
  { induction d as [|x d IH]; intros e He; [exact He|].
    change (String x d ++ e) with (String x (d ++ e)). simpl.
    rewrite (IH e He). apply orb_true_r. }
  apply Happ, Happ, Happ, Hself.
Qed.

Lemma close_logs_lines (b : Body) :
  Forall is_close_line (close_logs b) ∧ (length (close_logs b) ≤ 1)%nat.
Proof.
  unfold close_logs. destruct (body_closeErr b) as [e|]; simpl.
  - split; [|lia]. constructor; [|constructor].
    apply (strings_HasPrefix_app "Error closing response body: " e).
  - split; [constructor | lia].
Qed.

Lemma authorized_get_is (g : GiteaService) (u : URL) :
  is_authorized_get (Token g) (authorized_get g u).
Proof. split; reflexivity. Qed.

(** What either operation does to the world: it adds events, among them
    at most one request to the transport, an authorized GET, and adds at
    most one log line, for a body that failed to close. *)
Lemma GetDefaultBranch_effects (g : GiteaService) (owner repo : string) (σ : World C) :
  ∃ ev l,
    trace (GetDefaultBranch g owner repo σ).2
    = (trace σ ++ CallGetDefaultBranch owner repo :: ev)%list
    ∧ logs (GetDefaultBranch g owner repo σ).2 = (logs σ ++ l)%list
    ∧ (length (client_requests ev) ≤ 1)%nat
    ∧ Forall (is_authorized_get (Token g)) (client_requests ev)
    ∧ Forall is_close_line l ∧ (length l ≤ 1)%nat
    ∧ (∀ o p b, CallGetCommitStatus o p b ∉ ev).
Proof.
  rewrite GetDefaultBranch_run.
  destruct (url_Parse _) as [u|e].
  - destruct (Do (transport σ) (authorized_get g u)) as [c' [resp|e]].
    + destruct (close_logs_lines (resp_Body resp)) as [Hl Hn].
      case_decide; simpl;
        (eexists _, (close_logs (resp_Body resp)));
        (split; [reflexivity|]); (split; [reflexivity|]); simpl;
        (split; [lia|]);
        (split; [repeat constructor|]);
        (split; [exact Hl|]); (split; [exact Hn|]);
        intros o p b Hin; repeat (inversion Hin as [|? ? ? Hin']; clear Hin;
                                  rename Hin' into Hin).
    + simpl. eexists _, []. rewrite app_nil_r.
      split; [reflexivity|]. split; [reflexivity|]. simpl.
      split; [lia|]. split; [repeat constructor|].
      split; [constructor|]. split; [lia|].
      intros o p b Hin; repeat (inversion Hin as [|? ? ? Hin']; clear Hin;
                                rename Hin' into Hin).
  - simpl. eexists [], []. rewrite app_nil_r.
    split; [reflexivity|]. split; [reflexivity|]. simpl.
    split; [lia|]. split; [constructor|]. split; [constructor|]. split; [lia|].
    intros o p b Hin. inversion Hin.
Qed.

Lemma GetCommitStatus_effects (g : GiteaService) (owner repo branch : string) (σ : World C) :
  ∃ ev l,
    trace (GetCommitStatus g owner repo branch σ).2
    = (trace σ ++ CallGetCommitStatus owner repo branch :: ev)%list
    ∧ logs (GetCommitStatus g owner repo branch σ).2 = (logs σ ++ l)%list
    ∧ (length (client_requests ev) ≤ 1)%nat
    ∧ Forall (is_authorized_get (Token g)) (client_requests ev)
    ∧ Forall is_close_line l ∧ (length l ≤ 1)%nat.
Proof.
  rewrite GetCommitStatus_run.
  destruct (url_Parse _) as [u|e].
  - destruct (Do (transport σ) (authorized_get g u)) as [c' [resp|e]].
    + destruct (close_logs_lines (resp_Body resp)) as [Hl Hn].
      repeat case_decide; simpl;
        (eexists _, (close_logs (resp_Body resp)));
        (split; [reflexivity|]); (split; [reflexivity|]); simpl;
        (split; [lia|]);
        (split; [repeat constructor|]);
        (split; [exact Hl | exact Hn]).
    + simpl. eexists _, []. rewrite app_nil_r.
      split; [reflexivity|]. split; [reflexivity|]. simpl.
      split; [lia|]. split; [repeat constructor|].
      split; [constructor | lia].
  - simpl. eexists [], []. rewrite app_nil_r.
    split; [reflexivity|]. split; [reflexivity|]. simpl.
    split; [lia|]. split; [constructor|]. split; [constructor | lia].
Qed.

(** X3. A URL that does not parse. Neither operation reaches the transport
    when [http.NewRequest] fails: the error is returned as it is, the
    transport is in the state it was in and saw no request. *)
Theorem unparsable_url_skips_transport (g : GiteaService) (owner repo branch : string)
    (σ : World C) :
  (∀ e, url_Parse (repo_info_url g owner repo) = Err e →
        GetDefaultBranch g owner repo σ
        = (Err e, mkWorld (transport σ)
                    (trace σ ++ [CallGetDefaultBranch owner repo]) (logs σ)))
  ∧ (∀ e, url_Parse (commit_status_url g owner repo branch) = Err e →
          GetCommitStatus g owner repo branch σ
          = (Err e, mkWorld (transport σ)
                      (trace σ ++ [CallGetCommitStatus owner repo branch]) (logs σ))).
Proof.
  split; intros e He.
  - rewrite GetDefaultBranch_run, He. reflexivity.
  - rewrite GetCommitStatus_run, He. reflexivity.
Qed.

(** X4. A transport failure. When [Do] returns an error, either operation
    returns that very error; no body is read, decoded or closed and
    nothing is logged. *)
Theorem transport_error_passes_through (g : GiteaService) (owner repo branch : string)
    (σ : World C) :
  (∀ u c' e,
     url_Parse (repo_info_url g owner repo) = Ok u →
     Do (transport σ) (authorized_get g u) = (c', Err e) →
     GetDefaultBranch g owner repo σ
     = (Err e, mkWorld c'
                 (trace σ ++ [CallGetDefaultBranch owner repo;
                              ClientDo (authorized_get g u)])
                 (logs σ)))
  ∧ (∀ u c' e,
       url_Parse (commit_status_url g owner repo branch) = Ok u →
       Do (transport σ) (authorized_get g u) = (c', Err e) →
       GetCommitStatus g owner repo branch σ
       = (Err e, mkWorld c'
                   (trace σ ++ [CallGetCommitStatus owner repo branch;
                                ClientDo (authorized_get g u)])
                   (logs σ))).
Proof.
  split; intros u c' e Hu Hdo.
  - rewrite GetDefaultBranch_run, Hu, Hdo. reflexivity.
  - rewrite GetCommitStatus_run, Hu, Hdo. reflexivity.
Qed.

(** X5. An unexpected upstream status. When the commit-status call is
    answered with a status that is neither 200 nor 404, [GetCommitStatus]
    fails with a message that holds both the status code and the text of
    the response body; the body is read to its end, not decoded, and then
    closed. *)
Theorem GetCommitStatus_other_status_is_error (g : GiteaService)
    (owner repo branch : string) (σ : World C) (u : URL) (resp : Response) (c' : C) :
  commit_status_answers g (transport σ) owner repo branch u resp c' →
  StatusCode resp ≠ StatusNotFound →
  StatusCode resp ≠ StatusOK →
  ∃ e σ',
    GetCommitStatus g owner repo branch σ = (Err e, σ')
    ∧ strings_HasPrefix e "failed to get commit status: " = true
    ∧ strings_Contains e (pretty (StatusCode resp)) = true
    ∧ strings_Contains e (body_bytes (resp_Body resp)) = true
    ∧ trace σ' = (trace σ ++ [CallGetCommitStatus owner repo branch;
                              ClientDo (authorized_get g u);
                              BodyReadAll; BodyClose])%list.
Proof.
  intros [Hu Hdo] H404 H200.
  rewrite GetCommitStatus_run. fold (commit_status_url g owner repo branch) in Hu.
  rewrite Hu, Hdo.
  rewrite decide_False by exact H404. rewrite decide_True by exact H200.
  eexists _, _. split; [reflexivity|].
  split; [apply strings_HasPrefix_app|].
  split; [apply (strings_Contains_app "failed to get commit status: ")|].
  split; [|reflexivity].
  apply (strings_Contains_end "failed to get commit status: "
           (pretty (StatusCode resp)) " - ").
Qed.

(** X6. A 200 answer to the commit-status call. [GetCommitStatus] returns
    what decoding the body gives and nothing else: a decoding error as it
    is, a decoded status unchanged, whatever its state is. *)
Theorem GetCommitStatus_200_is_decoded_body (g : GiteaService)
    (owner repo branch : string) (σ : World C) (u : URL) (resp : Response) (c' : C) :
  commit_status_answers g (transport σ) owner repo branch u resp c' →
  StatusCode resp = StatusOK →
  (GetCommitStatus g owner repo branch σ).1
  = json_Decode_StatusResponse (body_bytes (resp_Body resp)).
Proof.
  intros [Hu Hdo] H200.
  rewrite GetCommitStatus_run. fold (commit_status_url g owner repo branch) in Hu.
  rewrite Hu, Hdo, H200. reflexivity.
Qed.

(** X7. The deferred close. Once the transport has returned a response,
    either operation closes its body exactly once, as the last thing it
    does, on the error paths as on the others. *)
Theorem response_body_closed_once_and_last (g : GiteaService)
    (owner repo branch : string) (σ : World C) :
  (∀ u resp c',
     repo_info_answers g (transport σ) owner repo u resp c' →
     ∃ mid, trace (GetDefaultBranch g owner repo σ).2
            = (trace σ ++ mid ++ [BodyClose])%list
            ∧ BodyClose ∉ mid)
  ∧ (∀ u resp c',
       commit_status_answers g (transport σ) owner repo branch u resp c' →
       ∃ mid, trace (GetCommitStatus g owner repo branch σ).2
              = (trace σ ++ mid ++ [BodyClose])%list
              ∧ BodyClose ∉ mid).
Proof.
  split; intros u resp c' [Hu Hdo].
  - rewrite GetDefaultBranch_run. fold (repo_info_url g owner repo) in Hu.
    rewrite Hu, Hdo.
    case_decide; simpl;
      [exists [CallGetDefaultBranch owner repo; ClientDo (authorized_get g u); BodyReadAll]
      |exists [CallGetDefaultBranch owner repo; ClientDo (authorized_get g u); BodyDecode]];
      (split; [reflexivity|]);
      intros Hin; repeat (inversion Hin as [|? ? ? Hin']; clear Hin; rename Hin' into Hin).
  - rewrite GetCommitStatus_run. fold (commit_status_url g owner repo branch) in Hu.
    rewrite Hu, Hdo.
    repeat case_decide; simpl;
      [exists [CallGetCommitStatus owner repo branch; ClientDo (authorized_get g u)]
      |exists [CallGetCommitStatus owner repo branch; ClientDo (authorized_get g u);
               BodyReadAll]
      |exists [CallGetCommitStatus owner repo branch; ClientDo (authorized_get g u);
               BodyDecode]];
      (split; [reflexivity|]);
      intros Hin; repeat (inversion Hin as [|? ? ? Hin']; clear Hin; rename Hin' into Hin).
Qed.

(** X8. A body that fails to close. The failure changes nothing but the
    log: two runs of [GetDefaultBranch] whose responses have the same
    status and bytes return the same result whether or not the close
    fails, and the run adds to the log the line of the failed close and
    no other. *)
Theorem close_error_only_logs (g : GiteaService) (owner repo : string)
    (σ σ2 : World C) (u : URL) (resp resp2 : Response) (c' c2' : C) :
  repo_info_answers g (transport σ) owner repo u resp c' →
  repo_info_answers g (transport σ2) owner repo u resp2 c2' →
  StatusCode resp = StatusCode resp2 →
  body_bytes (resp_Body resp) = body_bytes (resp_Body resp2) →
  (GetDefaultBranch g owner repo σ).1 = (GetDefaultBranch g owner repo σ2).1
  ∧ logs (GetDefaultBranch g owner repo σ).2
    = (logs σ ++ close_logs (resp_Body resp))%list.
Proof.
  intros [Hu Hdo] [Hu2 Hdo2] Hcode Hbytes.
  rewrite !GetDefaultBranch_run. fold (repo_info_url g owner repo) in Hu, Hu2.
  rewrite Hu, Hdo, Hdo2, <- Hcode, <- Hbytes.
  case_decide; split; reflexivity.
Qed.
End Operations.

(** ** The [/status] handler on every path *)

Section Handler.
Context {C : Type} `{!HTTPClient C} `{!GoLib}.
Variable service : GiteaService.

(** The handler once the method and the parameters are accepted, in terms
    of the results of the two operations. *)
Lemma statusHandler_pipeline (r : Request) (σ : World C) :
  Method r = MethodGet →
  owner_of r ≠ "" → repo_of r ≠ "" →
  statusHandler service NewRecorder r σ
  = match GetDefaultBranch service (owner_of r) (repo_of r) σ with
    | (Err err, σ1) =>
      (json_answer StatusInternalServerError
         (Marshal_BuildStatusResponse
            {| Owner := owner_of r; Repository_ := repo_of r; Branch := "";
               State := ""; Symbol := "";
               Error := "Failed to get repository info: " ++ err |}), σ1)
    | (Ok branch, σ1) =>
      match GetCommitStatus service (owner_of r) (repo_of r) branch σ1 with
      | (Err err, σ2) =>
        (json_answer StatusInternalServerError
           (Marshal_BuildStatusResponse
              {| Owner := owner_of r; Repository_ := repo_of r; Branch := branch;
                 State := ""; Symbol := "";
                 Error := "Failed to get commit status: " ++ err |}), σ2)
      | (Ok status, σ2) =>
        (json_answer (mapStateToHTTPCode (sr_State status))
           (Marshal_BuildStatusResponse
              {| Owner := owner_of r; Repository_ := repo_of r; Branch := branch;
                 State := sr_State status;
                 Symbol := mapStateToSymbol (sr_State status);
                 Error := "" |}), σ2)
      end
    end.
Proof.
  intros Hm Ho Hr. unfold statusHandler.
  rewrite decide_False by (intros Hne; exact (Hne Hm)).
  fold (owner_of r) (repo_of r).
  rewrite decide_False by (intros [?|?]; contradiction).
  unfold bind at 1, getDefaultBranch.
  destruct (GetDefaultBranch service (owner_of r) (repo_of r) σ) as [[branch|err] σ1].
  - unfold bind at 1, getCommitStatus.
    destruct (GetCommitStatus service (owner_of r) (repo_of r) branch σ1)
      as [[status|err] σ2]; apply encode_or_log_answer.
  - apply encode_or_log_answer.
Qed.

(** X9. The first failure ends the request. When [GetDefaultBranch] fails,
    for whatever reason, the handler answers 500 with owner and repository
    filled in, branch, state and symbol empty and the failure after the
    prefix "Failed to get repository info: "; the world is the one
    [GetDefaultBranch] left, so [GetCommitStatus] is not entered. *)
Theorem branch_failure_ends_request (r : Request) (σ σ1 : World C) (err : error) :
  Method r = MethodGet →
  owner_of r ≠ "" → repo_of r ≠ "" →
  GetDefaultBranch service (owner_of r) (repo_of r) σ = (Err err, σ1) →
  statusHandler service NewRecorder r σ
  = (json_answer StatusInternalServerError
       (JObject
          [("owner", JString (owner_of r)); ("repository", JString (repo_of r));
           ("branch", JString ""); ("state", JString ""); ("symbol", JString "");
           ("error", JString ("Failed to get repository info: " ++ err))]),
     σ1).
Proof.
  intros Hm Ho Hr Hrun.
  rewrite (statusHandler_pipeline r σ Hm Ho Hr), Hrun.
  unfold Marshal_BuildStatusResponse. simpl. reflexivity.
Qed.

(** X10. A failure of the second stage. When the branch is resolved and
    [GetCommitStatus] fails, the handler answers 500 with owner, repository
    and the resolved branch filled in, state and symbol empty and the
    failure after the prefix "Failed to get commit status: ". *)
Theorem status_failure_keeps_branch (r : Request) (σ σ1 σ2 : World C)
    (branch : string) (err : error) :
  Method r = MethodGet →
  owner_of r ≠ "" → repo_of r ≠ "" →
  GetDefaultBranch service (owner_of r) (repo_of r) σ = (Ok branch, σ1) →
  GetCommitStatus service (owner_of r) (repo_of r) branch σ1 = (Err err, σ2) →
  statusHandler service NewRecorder r σ
  = (json_answer StatusInternalServerError
       (JObject
          [("owner", JString (owner_of r)); ("repository", JString (repo_of r));
           ("branch", JString branch); ("state", JString ""); ("symbol", JString "");
           ("error", JString ("Failed to get commit status: " ++ err))]),
     σ2).
Proof.
  intros Hm Ho Hr Hrun1 Hrun2.
  rewrite (statusHandler_pipeline r σ Hm Ho Hr), Hrun1, Hrun2.
  unfold Marshal_BuildStatusResponse. simpl. reflexivity.
Qed.

(** X11. The whole pipeline. When both upstream calls are answered 200 and
    both bodies decode, the handler answers with the code and the symbol
    the mappers give for the decoded state, in a body without error
    member. It made exactly two requests, the second one for the branch
    the first one resolved, and each body was decoded and closed before
    the next step. *)
Theorem two_calls_in_sequence (r : Request) (σ : World C)
    (u1 u2 : URL) (resp1 resp2 : Response) (c1 c2 : C)
    (repository : Repository) (status : StatusResponse) :
  Method r = MethodGet →
  owner_of r ≠ "" → repo_of r ≠ "" →
  repo_info_answers service (transport σ) (owner_of r) (repo_of r) u1 resp1 c1 →
  StatusCode resp1 = StatusOK →
  json_Decode_Repository (body_bytes (resp_Body resp1)) = Ok repository →
  commit_status_answers service c1 (owner_of r) (repo_of r)
    (DefaultBranch repository) u2 resp2 c2 →
  StatusCode resp2 = StatusOK →
  json_Decode_StatusResponse (body_bytes (resp_Body resp2)) = Ok status →
  statusHandler service NewRecorder r σ
  = (json_answer (mapStateToHTTPCode (sr_State status))
       (JObject
          [("owner", JString (owner_of r)); ("repository", JString (repo_of r));
           ("branch", JString (DefaultBranch repository));
           ("state", JString (sr_State status));
           ("symbol", JString (mapStateToSymbol (sr_State status)))]),
     mkWorld c2
       (trace σ ++
        [CallGetDefaultBranch (owner_of r) (repo_of r);
         ClientDo (authorized_get service u1); BodyDecode; BodyClose;
         CallGetCommitStatus (owner_of r) (repo_of r) (DefaultBranch repository);
         ClientDo (authorized_get service u2); BodyDecode; BodyClose])
       (logs σ ++ close_logs (resp_Body resp1) ++ close_logs (resp_Body resp2))).
Proof.
  intros Hm Ho Hr [Hu1 Hdo1] H1 Hd1 [Hu2 Hdo2] H2 Hd2.
  rewrite (statusHandler_pipeline r σ Hm Ho Hr).
  rewrite GetDefaultBranch_run. fold (repo_info_url service (owner_of r) (repo_of r)) in Hu1.
  rewrite Hu1, Hdo1, H1, Hd1. simpl.
  rewrite GetCommitStatus_run.
  fold (commit_status_url service (owner_of r) (repo_of r) (DefaultBranch repository)) in Hu2.
  simpl transport. rewrite Hu2, Hdo2, H2, Hd2. simpl.
  rewrite <- !app_assoc. reflexivity.
Qed.

Lemma mapStateToHTTPCode_in_codes (s : string) :
  mapStateToHTTPCode s ∈ [200; 202; 204; 417; 500].
Proof.
  unfold mapStateToHTTPCode.
  destruct (codeMap_lookup_cases s)
    as [[_ ->]|[[_ ->]|[[_ ->]|[[_ ->]|[[_ ->]|[[_ ->]| ->]]]]]];
    unfold StatusOK; rewrite !elem_of_cons; auto 10.
Qed.

(** X12. The status codes. Whatever the request and whatever the upstream
    does, the handler answers with one of 200, 202, 204, 400, 405, 417
    and 500. *)
Theorem status_code_is_one_of_seven (r : Request) (σ : World C) :
  Code (statusHandler service NewRecorder r σ).1 ∈ status_codes.
Proof.
  destruct (decide (Method r = MethodGet)) as [Hm|Hm].
  - destruct (statusHandler_GET service r σ Hm) as (code & v & -> & Ha).
    simpl. unfold status_codes.
    destruct Ha as [?|? ? ?|? ? ? ?|branch state ? ?];
      unfold StatusBadRequest, StatusInternalServerError;
      try (rewrite !elem_of_cons; auto 10; fail).
    pose proof (mapStateToHTTPCode_in_codes state) as Hin.
    rewrite !elem_of_cons in Hin. rewrite !elem_of_cons. intuition auto.
  - rewrite (statusHandler_other_method service r σ Hm).
    unfold status_codes. simpl. rewrite !elem_of_cons. auto 10.
Qed.

(** X13. What 405 and 400 mean. The handler answers 405 exactly when the
    method is not GET, and 400 exactly when a GET request lacks a
    non-empty owner or repo; no upstream state leads to either code. *)
Theorem codes_405_and_400_name_the_request (r : Request) (σ : World C) :
  (Code (statusHandler service NewRecorder r σ).1 = StatusMethodNotAllowed
   ↔ Method r ≠ MethodGet)
  ∧ (Code (statusHandler service NewRecorder r σ).1 = StatusBadRequest
     ↔ Method r = MethodGet ∧ (owner_of r = "" ∨ repo_of r = "")).
Proof.
  destruct (decide (Method r = MethodGet)) as [Hm|Hm].
  - destruct (statusHandler_GET service r σ Hm) as (code & v & -> & Ha).
    simpl.
    destruct Ha as [Hq|err Ho Hr|branch err Ho Hr|branch state Ho Hr].
    + split; split; try discriminate; try contradiction; auto.
    + split; split; try discriminate; try contradiction.
      intros [_ [?|?]]; contradiction.
    + split; split; try discriminate; try contradiction.
      intros [_ [?|?]]; contradiction.
    + pose proof (mapStateToHTTPCode_in_codes state) as Hin.
      unfold StatusMethodNotAllowed, StatusBadRequest.
      split; split; try contradiction.
      * intros E. rewrite E, !elem_of_cons, elem_of_nil in Hin.
        intuition discriminate.
      * intros E. rewrite E, !elem_of_cons, elem_of_nil in Hin.
        intuition discriminate.
      * intros [_ [?|?]]; contradiction.
  - rewrite (statusHandler_other_method service r σ Hm). simpl.
    split; split; try discriminate; auto.
    intros [? _]. contradiction.
Qed.

(** X14. What 204, 417 and 202 mean. In every JSON answer, the code is 204
    exactly when the state member is "unknown", 417 exactly when it is
    "failure" and 202 exactly when it is "pending". *)
Theorem code_names_the_state (r : Request) (σ : World C) (doc : json) :
  doc ∈ json_docs (statusHandler service NewRecorder r σ).1 →
  (Code (statusHandler service NewRecorder r σ).1 = StatusNoContent
   ↔ get_field doc "state" = Some (JString "unknown"))
  ∧ (Code (statusHandler service NewRecorder r σ).1 = StatusExpectationFailed
     ↔ get_field doc "state" = Some (JString "failure"))
  ∧ (Code (statusHandler service NewRecorder r σ).1 = StatusAccepted
     ↔ get_field doc "state" = Some (JString "pending")).
Proof.
  destruct (decide (Method r = MethodGet)) as [Hm|Hm].
  - destruct (statusHandler_GET service r σ Hm) as (code & v & -> & Ha).
    intros Hin. change (doc ∈ [Marshal_BuildStatusResponse v]) in Hin.
    apply list_elem_of_singleton in Hin. subst doc.
    destruct (get_field_Marshal v) as (_ & _ & _ & Fs & _). rewrite Fs.
    destruct Ha as [Hq|err Ho Hr|branch err Ho Hr|branch state Ho Hr]; simpl.
    1-3: repeat split; intros; discriminate.
    destruct (mapStateToHTTPCode_inverse state) as (H417 & _ & H202 & H204 & _).
    unfold StatusNoContent, StatusExpectationFailed, StatusAccepted.
    rewrite H417, H202, H204.
    repeat split; intros E; congruence.
  - rewrite (statusHandler_other_method service r σ Hm).
    unfold json_docs. simpl. intros Hin. inversion Hin.
Qed.

(** X15. The two meanings of 500. A 500 answer without error member reports
    the upstream state "error"; a 500 answer with an error member reports
    a failed lookup and has an empty state. *)
Theorem code_500_build_error_or_failure (r : Request) (σ : World C) (doc : json) :
  doc ∈ json_docs (statusHandler service NewRecorder r σ).1 →
  Code (statusHandler service NewRecorder r σ).1 = StatusInternalServerError →
  (get_field doc "error" = None ∧ get_field doc "state" = Some (JString "error"))
  ∨ ((∃ e, get_field doc "error" = Some (JString e) ∧ e ≠ "")
     ∧ get_field doc "state" = Some (JString "")).
Proof.
  destruct (decide (Method r = MethodGet)) as [Hm|Hm].
  - destruct (statusHandler_GET service r σ Hm) as (code & v & -> & Ha).
    intros Hin Hcode. change (doc ∈ [Marshal_BuildStatusResponse v]) in Hin.
    apply list_elem_of_singleton in Hin. subst doc. simpl in Hcode.
    destruct (get_field_Marshal v) as (_ & _ & _ & Fs & _ & Fe).
    rewrite Fs, Fe.
    destruct Ha as [Hq|err Ho Hr|branch err Ho Hr|branch state Ho Hr]; simpl.
    + discriminate Hcode.
    + right. split; [|reflexivity]. eexists. split; [reflexivity|discriminate].
    + right. split; [|reflexivity]. eexists. split; [reflexivity|discriminate].
    + left. split; [reflexivity|].
      destruct (mapStateToHTTPCode_inverse state) as (_ & H500 & _).
      apply H500 in Hcode. rewrite Hcode. reflexivity.
  - rewrite (statusHandler_other_method service r σ Hm).
    unfold json_docs. simpl. intros Hin. inversion Hin.
Qed.


Lemma client_requests_app (ev1 ev2 : list Event) :
  client_requests (ev1 ++ ev2) = (client_requests ev1 ++ client_requests ev2)%list.
Proof. apply omap_app. Qed.

Lemma client_requests_enter_branch (owner repo : string) (ev : list Event) :
  client_requests (CallGetDefaultBranch owner repo :: ev) = client_requests ev.
Proof. reflexivity. Qed.

Lemma client_requests_enter_status (owner repo branch : string) (ev : list Event) :
  client_requests (CallGetCommitStatus owner repo branch :: ev) = client_requests ev.
Proof. reflexivity. Qed.

(** What a request does to the world. *)
Lemma statusHandler_effects (r : Request) (σ : World C) :
  ∃ ev l,
    trace (statusHandler service NewRecorder r σ).2 = (trace σ ++ ev)%list
    ∧ logs (statusHandler service NewRecorder r σ).2 = (logs σ ++ l)%list
    ∧ (length (client_requests ev) ≤ 2)%nat
    ∧ Forall (is_authorized_get (Token service)) (client_requests ev)
    ∧ Forall is_close_line l ∧ (length l ≤ 2)%nat.
Proof.
  assert (Hnone : ∀ w : ResponseRecorder,
            ∃ ev l, trace (w, σ).2 = (trace σ ++ ev)%list
                    ∧ logs (w, σ).2 = (logs σ ++ l)%list
                    ∧ (length (client_requests ev) ≤ 2)%nat
                    ∧ Forall (is_authorized_get (Token service)) (client_requests ev)
                    ∧ Forall is_close_line l ∧ (length l ≤ 2)%nat).
  { intros w. exists [], []. rewrite !app_nil_r. simpl.
    repeat split; try constructor; lia. }
  destruct (decide (Method r = MethodGet)) as [Hm|Hm];
    [|rewrite (statusHandler_other_method service r σ Hm); apply Hnone].
  destruct (decide (owner_of r = "" ∨ repo_of r = "")) as [Hq|Hq].
  { unfold statusHandler.
    rewrite decide_False by (intros Hne; exact (Hne Hm)).
    fold (owner_of r) (repo_of r).
    rewrite decide_True by exact Hq.
    rewrite encode_or_log_answer. apply Hnone. }
  assert (owner_of r ≠ "" ∧ repo_of r ≠ "") as [Ho Hr].
  { split; intros E; apply Hq; [left|right]; exact E. }
  rewrite (statusHandler_pipeline r σ Hm Ho Hr).
  destruct (GetDefaultBranch_effects service (owner_of r) (repo_of r) σ)
    as (ev1 & l1 & Ht1 & Hl1 & Hn1 & Ha1 & Hc1 & Hm1 & _).
  destruct (GetDefaultBranch service (owner_of r) (repo_of r) σ) as [[branch|err] σ1];
    simpl in Ht1, Hl1.
  - destruct (GetCommitStatus_effects service (owner_of r) (repo_of r) branch σ1)
      as (ev2 & l2 & Ht2 & Hl2 & Hn2 & Ha2 & Hc2 & Hm2).
    assert (∀ w : ResponseRecorder, ∃ ev l,
              trace (w, (GetCommitStatus service (owner_of r) (repo_of r) branch σ1).2).2
              = (trace σ ++ ev)%list
              ∧ logs (w, (GetCommitStatus service (owner_of r) (repo_of r) branch σ1).2).2
                = (logs σ ++ l)%list
              ∧ (length (client_requests ev) ≤ 2)%nat
              ∧ Forall (is_authorized_get (Token service)) (client_requests ev)
              ∧ Forall is_close_line l ∧ (length l ≤ 2)%nat) as Hboth.
    { intros w. simpl. rewrite Ht2, Hl2, Ht1, Hl1.
      exists (CallGetDefaultBranch (owner_of r) (repo_of r) :: ev1
              ++ CallGetCommitStatus (owner_of r) (repo_of r) branch :: ev2)%list,
             (l1 ++ l2)%list.
      split; [rewrite <- app_assoc; reflexivity|].
      split; [rewrite <- app_assoc; reflexivity|].
      rewrite client_requests_enter_branch, client_requests_app,
        client_requests_enter_status, !length_app.
      split; [lia|]. split; [apply Forall_app; split; assumption|].
      split; [apply Forall_app; split; assumption | lia]. }
    destruct (GetCommitStatus service (owner_of r) (repo_of r) branch σ1)
      as [[status|err] σ2]; apply Hboth.
  - simpl. rewrite Ht1, Hl1.
    exists (CallGetDefaultBranch (owner_of r) (repo_of r) :: ev1), l1.
    split; [reflexivity|]. split; [reflexivity|].
    rewrite client_requests_enter_branch.
    split; [lia|]. split; [assumption|]. split; [assumption | lia].
Qed.

(** X17. The requests to the upstream. Serving one request, the handler
    hands at most two requests to the transport, and each of them is a GET
    whose only header is [Authorization: token] followed by the token
    of the service. *)
Theorem at_most_two_authorized_calls (r : Request) (σ : World C) :
  ∃ ev,
    trace (statusHandler service NewRecorder r σ).2 = (trace σ ++ ev)%list
    ∧ (length (client_requests ev) ≤ 2)%nat
    ∧ Forall (is_authorized_get (Token service)) (client_requests ev).
Proof.
  destruct (statusHandler_effects r σ) as (ev & l & Ht & _ & Hn & Ha & _).
  exists ev. auto.
Qed.


(** X21. What the handler reads. The answer and the effects depend on the
    request through its method and the first [owner] and [repo] query
    values only: two requests that agree on these are served alike,
    whatever their paths, headers and other query values are. *)
Theorem handler_reads_method_owner_repo_only (r r' : Request) (σ : World C) :
  Method r = Method r' →
  owner_of r = owner_of r' →
  repo_of r = repo_of r' →
  statusHandler service NewRecorder r σ = statusHandler service NewRecorder r' σ.
Proof.
  intros Hm Ho Hr. unfold statusHandler.
  fold (owner_of r) (repo_of r) (owner_of r') (repo_of r').
  rewrite Hm, Ho, Hr. reflexivity.
Qed.
End Handler.

(** ** Start-up *)

(** X19. The required variables. [init] is fatal when [GITEA_URL] is unset
    or empty, naming it even if [TOKEN] is missing too; it is fatal when
    only [TOKEN] is unset or empty; otherwise, and only then, the service
    is set up with the two values and a client timeout of ten seconds. *)
Theorem init_needs_both_variables (env : gmap string string) :
  (os_Getenv env "GITEA_URL" = "" →
   init env = Fatal "GITEA_URL environment variable is required")
  ∧ (os_Getenv env "GITEA_URL" ≠ "" → os_Getenv env "TOKEN" = "" →
     init env = Fatal "TOKEN environment variable is required")
  ∧ (∀ svc timeout,
       init env = Started svc timeout
       ↔ os_Getenv env "GITEA_URL" ≠ "" ∧ os_Getenv env "TOKEN" ≠ ""
         ∧ svc = {| BaseURL := os_Getenv env "GITEA_URL";
                    Token := os_Getenv env "TOKEN" |}
         ∧ timeout = 10000000000).
Proof.
  unfold init.
  destruct (decide (os_Getenv env "GITEA_URL" = "")) as [Hu|Hu];
    [|destruct (decide (os_Getenv env "TOKEN" = "")) as [Ht|Ht]].
  - split; [reflexivity|]. split; [contradiction|].
    intros svc t. split; [discriminate|]. intros [? _]. contradiction.
  - split; [contradiction|]. split; [reflexivity|].
    intros svc t. split; [discriminate|]. intros (_ & ? & _). contradiction.
  - split; [contradiction|]. split; [contradiction|].
    intros svc t. split.
    + intros [= <- <-]. auto.
    + intros (_ & _ & -> & ->). reflexivity.
Qed.

Lemma init_started_fields (env : gmap string string) (svc : GiteaService) (timeout : Z) :
  init env = Started svc timeout →
  BaseURL svc = os_Getenv env "GITEA_URL" ∧ Token svc = os_Getenv env "TOKEN".
Proof.
  unfold init. repeat case_decide; try discriminate.
  intros [= <- <-]. split; reflexivity.
Qed.

Section Startup.
Context {C : Type} `{!HTTPClient C} `{!GoLib}.

(** X20. From the environment to the upstream. A process that [init]
    started from an environment sends, with every request the handler
    makes, the header [Authorization: token] followed by the value of
    [TOKEN] in that environment. *)
Theorem started_service_forwards_token (env : gmap string string)
    (svc : GiteaService) (timeout : Z) (r : Request) (σ : World C) :
  init env = Started svc timeout →
  ∃ ev,
    trace (statusHandler svc NewRecorder r σ).2 = (trace σ ++ ev)%list
    ∧ Forall (λ req, req_Header req !! "Authorization"
                     = Some ["token " ++ os_Getenv env "TOKEN"])
        (client_requests ev).
Proof.
  intros Hinit.
  destruct (init_started_fields env svc timeout Hinit) as [_ Htoken].
  destruct (statusHandler_effects svc r σ) as (ev & l & Ht & _ & _ & Ha & _).
  exists ev. split; [exact Ht|].
  eapply Forall_impl; [exact Ha|].
  intros req [_ Hh]. rewrite Hh, Htoken. reflexivity.
Qed.
End Startup.

(** ** The further properties at the scenarios of the tests *)

Lemma unparsable_url_skips_transport_witness :
  @GetDefaultBranch MockHTTPClient _ strictLib invalidService "testowner" "testrepo"
    world_main_404
  = (Err "net/url: invalid control character in URL",
     mkWorld (transport world_main_404)
       [CallGetDefaultBranch "testowner" "testrepo"] []).
Proof.
  apply (proj1 (@unparsable_url_skips_transport MockHTTPClient _ strictLib
                  invalidService "testowner" "testrepo" "main" world_main_404)).
  reflexivity.
Defined.

Lemma transport_error_passes_through_witness :
  GetDefaultBranch exampleService "acme" "widget" world_network_error
  = (Err "network error",
     mkWorld (mkMock 1 (DoFunc (transport world_network_error)))
       [CallGetDefaultBranch "acme" "widget";
        ClientDo (authorized_get exampleService
                    {| url_String := "https://git.example.com/api/v1/repos/acme/widget";
                       url_Query := ∅ |})]
       []).
Proof.
  apply (proj1 (transport_error_passes_through exampleService "acme" "widget" "main"
                  world_network_error)).
  - reflexivity.
  - reflexivity.
Defined.

Lemma GetCommitStatus_other_status_is_error_witness :
  ∃ e σ',
    GetCommitStatus exampleService "acme" "widget" "main"
      (world0 (mockClient (Ok (createHTTPResponse 500 "Internal Server Error"))
                          (Err "unreachable")))
    = (Err e, σ')
    ∧ strings_HasPrefix e "failed to get commit status: " = true
    ∧ strings_Contains e "500" = true
    ∧ strings_Contains e "Internal Server Error" = true.
Proof.
  destruct (GetCommitStatus_other_status_is_error exampleService "acme" "widget" "main"
              (world0 (mockClient (Ok (createHTTPResponse 500 "Internal Server Error"))
                                  (Err "unreachable")))
              {| url_String :=
                   "https://git.example.com/api/v1/repos/acme/widget/commits/main/status";
                 url_Query := ∅ |}
              (createHTTPResponse 500 "Internal Server Error")
              (mkMock 1 (λ n _, if decide (n = 1%nat)
                                then Ok (createHTTPResponse 500 "Internal Server Error")
                                else Err "unreachable")))
    as (e & σ' & Hrun & Hp & Hc & Hb & _).
  - split; reflexivity.
  - vm_compute. discriminate.
  - vm_compute. discriminate.
  - exists e, σ'. split; [exact Hrun|]. split; [exact Hp|]. split; [exact Hc | exact Hb].
Defined.

Lemma GetCommitStatus_200_is_decoded_body_witness :
  (GetCommitStatus exampleService "acme" "widget" "main"
     (world0 (mockClient (Ok (createHTTPResponse 200 body_success)) (Err "unreachable")))).1
  = Ok {| sr_State := "success"; sr_Statuses := []; sr_TotalCount := 0 |}.
Proof.
  etransitivity.
  - apply (GetCommitStatus_200_is_decoded_body exampleService "acme" "widget" "main"
             (world0 (mockClient (Ok (createHTTPResponse 200 body_success))
                                 (Err "unreachable")))
             {| url_String :=
                  "https://git.example.com/api/v1/repos/acme/widget/commits/main/status";
                url_Query := ∅ |}
             (createHTTPResponse 200 body_success)
             (mkMock 1 (λ n _, if decide (n = 1%nat)
                               then Ok (createHTTPResponse 200 body_success)
                               else Err "unreachable"))).
    + split; reflexivity.
    + reflexivity.
  - vm_compute. reflexivity.
Defined.

Lemma response_body_closed_once_and_last_witness :
  ∃ mid, trace (GetDefaultBranch exampleService "acme" "widget" world_repo_404).2
         = (trace world_repo_404 ++ mid ++ [BodyClose])%list
         ∧ BodyClose ∉ mid.
Proof.
  apply (proj1 (response_body_closed_once_and_last exampleService "acme" "widget" "main"
                  world_repo_404)
           {| url_String := "https://git.example.com/api/v1/repos/acme/widget";
              url_Query := ∅ |}
           (createHTTPResponse 404 "Repository not found")
           (mkMock 1 (DoFunc (transport world_repo_404)))).
  split; reflexivity.
Defined.

Lemma close_error_only_logs_witness :
  (GetDefaultBranch exampleService "acme" "widget" world_success_failing_close).1
  = (GetDefaultBranch exampleService "acme" "widget" world_success).1
  ∧ logs (GetDefaultBranch exampleService "acme" "widget" world_success_failing_close).2
    = ["Error closing response body: simulated close error"].
Proof.
  apply (close_error_only_logs exampleService "acme" "widget"
           world_success_failing_close world_success
           {| url_String := "https://git.example.com/api/v1/repos/acme/widget";
              url_Query := ∅ |}
           (failingCloseResponse 200 body_main) (createHTTPResponse 200 body_main)
           (mkMock 1 (DoFunc (transport world_success_failing_close)))
           (mkMock 1 (DoFunc (transport world_success)))).
  - split; reflexivity.
  - split; reflexivity.
  - reflexivity.
  - reflexivity.
Defined.

Lemma branch_failure_ends_request_witness :
  statusHandler exampleService NewRecorder getAcmeWidget world_network_error
  = (json_answer StatusInternalServerError
       (JObject
          [("owner", JString (owner_of getAcmeWidget));
           ("repository", JString (repo_of getAcmeWidget));
           ("branch", JString ""); ("state", JString ""); ("symbol", JString "");
           ("error", JString ("Failed to get repository info: " ++ "network error"))]),
     (GetDefaultBranch exampleService "acme" "widget" world_network_error).2).
Proof.
  apply (branch_failure_ends_request exampleService getAcmeWidget world_network_error
           (GetDefaultBranch exampleService "acme" "widget" world_network_error).2
           "network error").
  - reflexivity.
  - vm_compute. discriminate.
  - vm_compute. discriminate.
  - reflexivity.
Defined.

Lemma status_failure_keeps_branch_witness :
  statusHandler exampleService NewRecorder getAcmeWidget world_status_timeout
  = (json_answer StatusInternalServerError
       (JObject
          [("owner", JString (owner_of getAcmeWidget));
           ("repository", JString (repo_of getAcmeWidget));
           ("branch", JString "main"); ("state", JString ""); ("symbol", JString "");
           ("error", JString ("Failed to get commit status: " ++ "connection timeout"))]),
     (GetCommitStatus exampleService "acme" "widget" "main"
        (GetDefaultBranch exampleService "acme" "widget" world_status_timeout).2).2).
Proof.
  apply (status_failure_keeps_branch exampleService getAcmeWidget world_status_timeout
           (GetDefaultBranch exampleService "acme" "widget" world_status_timeout).2
           (GetCommitStatus exampleService "acme" "widget" "main"
              (GetDefaultBranch exampleService "acme" "widget" world_status_timeout).2).2
           "main" "connection timeout").
  - reflexivity.
  - vm_compute. discriminate.
  - vm_compute. discriminate.
  - reflexivity.
  - reflexivity.
Defined.

Lemma two_calls_in_sequence_witness :
  (statusHandler exampleService NewRecorder getAcmeWidget world_success).1
  = json_answer 200
      (JObject [("owner", JString "acme"); ("repository", JString "widget");
                ("branch", JString "main"); ("state", JString "success");
                ("symbol", JString "✓")]).
Proof.
  rewrite (two_calls_in_sequence exampleService getAcmeWidget world_success
             {| url_String := "https://git.example.com/api/v1/repos/acme/widget";
                url_Query := ∅ |}
             {| url_String :=
                  "https://git.example.com/api/v1/repos/acme/widget/commits/main/status";
                url_Query := ∅ |}
             (createHTTPResponse 200 body_main) (createHTTPResponse 200 body_success)
             (mkMock 1 (DoFunc (transport world_success)))
             (mkMock 2 (DoFunc (transport world_success)))
             {| DefaultBranch := "main" |}
             {| sr_State := "success"; sr_Statuses := []; sr_TotalCount := 0 |}).
  - reflexivity.
  - reflexivity.
  - vm_compute. discriminate.
  - vm_compute. discriminate.
  - split; reflexivity.
  - reflexivity.
  - reflexivity.
  - split; reflexivity.
  - reflexivity.
  - reflexivity.
Defined.

Lemma code_names_the_state_witness :
  Code (statusHandler exampleService NewRecorder getAcmeWidget world_main_404).1
  = StatusNoContent
  ↔ get_field
      (JObject [("owner", JString "acme"); ("repository", JString "widget");
                ("branch", JString "main"); ("state", JString "unknown");
                ("symbol", JString "○")]) "state"
    = Some (JString "unknown").
Proof.
  apply (code_names_the_state exampleService getAcmeWidget world_main_404).
  vm_compute. apply list_elem_of_here.
Defined.

Lemma code_500_build_error_or_failure_witness :
  let doc :=
    JObject [("owner", JString "acme"); ("repository", JString "widget");
             ("branch", JString "main"); ("state", JString ""); ("symbol", JString "");
             ("error", JString
                "Failed to get commit status: failed to get commit status: 500 - Internal Server Error")] in
  (get_field doc "error" = None ∧ get_field doc "state" = Some (JString "error"))
  ∨ ((∃ e, get_field doc "error" = Some (JString e) ∧ e ≠ "")
     ∧ get_field doc "state" = Some (JString "")).
Proof.
  intros doc.
  apply (code_500_build_error_or_failure exampleService getAcmeWidget world_status_500).
  - vm_compute. apply list_elem_of_here.
  - reflexivity.
Defined.

Lemma init_needs_both_variables_witness :
  init env_token_only = Fatal "GITEA_URL environment variable is required"
  ∧ init env_complete
    = Started {| BaseURL := os_Getenv env_complete "GITEA_URL";
                 Token := os_Getenv env_complete "TOKEN" |} 10000000000.
Proof.
  split.
  - apply (proj1 (init_needs_both_variables env_token_only)). reflexivity.
  - apply (proj2 (proj2 (init_needs_both_variables env_complete))).
    split; [vm_compute; discriminate|]. split; [vm_compute; discriminate|].
    split; reflexivity.
Defined.

Lemma started_service_forwards_token_witness :
  ∃ ev,
    trace (statusHandler exampleService NewRecorder getAcmeWidget world_success).2
    = (trace world_success ++ ev)%list
    ∧ Forall (λ req, req_Header req !! "Authorization"
                     = Some ["token " ++ os_Getenv env_complete "TOKEN"])
        (client_requests ev).
Proof.
  apply (started_service_forwards_token env_complete exampleService 10000000000
           getAcmeWidget world_success).
  reflexivity.
Defined.

Lemma handler_reads_method_owner_repo_only_witness :
  statusHandler exampleService NewRecorder getAcmeWidget world_success
  = statusHandler exampleService NewRecorder
      {| Method := "GET";
         req_URL := {| url_String := "/status/extra";
                       url_Query := <["owner" := ["acme"; "other"]]>
                                      (<["repo" := ["widget"]]>
                                         (<["verbose" := ["1"]]> ∅)) |};
         req_Header := <["Accept" := ["text/html"]]> ∅ |}
      world_success.
Proof.
  apply (handler_reads_method_owner_repo_only exampleService).
  - reflexivity.
  - vm_compute. reflexivity.
  - vm_compute. reflexivity.
Defined.
